(** * model.py: wiring of torchvision detection models

    A shallow embedding of [src/model.py] and of the properties its
    specification states.  The file has three layers:

    - the objects of the detection framework that [model.py] reads or
      writes (torchvision's anchor generator, RPN, RoI heads, RetinaNet
      and SSD heads), as records with the attributes the source touches;
    - the five functions of [model.py] ([set_anchor], [create_model],
      [create_fasterrcnn], [create_retinanet], [create_ssd300]), written
      in a small monad that threads the object being configured, the
      console output and the ways a run can end;
    - the theorems.

    Python [int]s are [Z], Python [float]s are binary64 floats, tuples and
    lists are [list]s, and [len] is [Z.of_nat (length _)]. *)

From Stdlib Require Import ZArith List String Bool Lia.
From Stdlib Require Import Floats.PrimFloat.
From Stdlib Require Import Sorted.
Import ListNotations.

Set Warnings "-inexact-float".
Set Implicit Arguments.

Local Open Scope string_scope.
Local Open Scope list_scope.
Local Open Scope Z_scope.

(** [len(x)] *)
Definition len {A : Type} (l : list A) : Z := Z.of_nat (List.length l).

(** [(x,) * n] for a Python integer [n]: nothing when [n <= 0]. *)
Definition tuple_mul {A : Type} (x : A) (n : Z) : list A := repeat x (Z.to_nat n).

(* ------------------------------------------------------------------ *)
(** * Framework objects *)
(* ------------------------------------------------------------------ *)

(** A sub-module that [model.py] hands along without looking inside it
    (a backbone, a pooling layer, a regression head). *)
Inductive NNModule : Type := nn_module (name : string).

(** How a layer's parameter tensor was initialised. *)
Inductive Init : Type :=
| init_default                          (* the layer's own reset_parameters *)
| init_normal (std : float)             (* torch.nn.init.normal_(t, std=std) *)
| init_constant (v : float)             (* torch.nn.init.constant_(t, v) *)
| init_constant_neg_log (x : float)     (* torch.nn.init.constant_(t, -math.log(x)) *)
| init_xavier_uniform.                  (* torch.nn.init.xavier_uniform_(t) *)

Module Linear.
(** [torch.nn.Linear(in_features, out_features)] *)
Record t : Type := new { in_features : Z; out_features : Z }.
End Linear.

Module Conv2d.
(** [torch.nn.Conv2d(in_channels, out_channels, kernel_size, stride, padding)]
    with the initialisation of its weight and bias. *)
Record t : Type := new {
  in_channels : Z;
  out_channels : Z;
  kernel_size : Z;
  stride : Z;
  padding : Z;
  weight : Init;
  bias : Init
}.

Definition set_weight (v : Init) (c : t) : t :=
  new (in_channels c) (out_channels c) (kernel_size c) (stride c) (padding c) v (bias c).

Definition set_bias (v : Init) (c : t) : t :=
  new (in_channels c) (out_channels c) (kernel_size c) (stride c) (padding c) (weight c) v.
End Conv2d.

Module Matcher.
(** [torchvision.models.detection._utils.Matcher] *)
Record t : Type := new {
  high_threshold : float;
  low_threshold : float;
  allow_low_quality_matches : bool
}.

Definition set_low_threshold (v : float) (m : t) : t :=
  new (high_threshold m) v (allow_low_quality_matches m).

Definition set_high_threshold (v : float) (m : t) : t :=
  new v (low_threshold m) (allow_low_quality_matches m).
End Matcher.

Module AnchorGenerator.
(** [torchvision.models.detection.anchor_utils.AnchorGenerator]: one tuple
    of sizes and one tuple of aspect ratios per feature level.  The cached
    [cell_anchors] tensors are left out. *)
Record t : Type := new {
  sizes : list (list Z);
  aspect_ratios : list (list float)
}.

Definition set_sizes (v : list (list Z)) (g : t) : t := new v (aspect_ratios g).

Definition set_aspect_ratios (v : list (list float)) (g : t) : t := new (sizes g) v.

(** [[len(s) * len(a) for s, a in zip(self.sizes, self.aspect_ratios)]] *)
Definition num_anchors_per_location (g : t) : list Z :=
  map (fun sa => len (fst sa) * len (snd sa)) (combine (sizes g) (aspect_ratios g)).
End AnchorGenerator.

Module RPNHead.
(** [torchvision.models.detection.rpn.RPNHead(in_channels, num_anchors)] *)
Record t : Type := new { in_channels : Z; num_anchors : Z }.
End RPNHead.

Module RegionProposalNetwork.
(** [model.rpn]: the attributes [model.py] reads or assigns. *)
Record t : Type := new {
  anchor_generator : AnchorGenerator.t;
  head : RPNHead.t;
  proposal_matcher : Matcher.t;
  nms_thresh : float;
  score_thresh : float
}.

Definition set_anchor_generator (v : AnchorGenerator.t) (r : t) : t :=
  new v (head r) (proposal_matcher r) (nms_thresh r) (score_thresh r).

Definition set_head (v : RPNHead.t) (r : t) : t :=
  new (anchor_generator r) v (proposal_matcher r) (nms_thresh r) (score_thresh r).

Definition set_proposal_matcher (v : Matcher.t) (r : t) : t :=
  new (anchor_generator r) (head r) v (nms_thresh r) (score_thresh r).

Definition set_nms_thresh (v : float) (r : t) : t :=
  new (anchor_generator r) (head r) (proposal_matcher r) v (score_thresh r).

Definition set_score_thresh (v : float) (r : t) : t :=
  new (anchor_generator r) (head r) (proposal_matcher r) (nms_thresh r) v.

(** An assignment below [anchor_generator] or [proposal_matcher]. *)
Definition in_anchor_generator (f : AnchorGenerator.t -> AnchorGenerator.t) (r : t) : t :=
  set_anchor_generator (f (anchor_generator r)) r.

Definition in_proposal_matcher (f : Matcher.t -> Matcher.t) (r : t) : t :=
  set_proposal_matcher (f (proposal_matcher r)) r.
End RegionProposalNetwork.

Module FastRCNNPredictor.
(** [torchvision.models.detection.faster_rcnn.FastRCNNPredictor] *)
Record t : Type := Build { cls_score : Linear.t; bbox_pred : Linear.t }.

(** [FastRCNNPredictor(in_channels, num_classes)] *)
Definition new (in_channels num_classes : Z) : t :=
  Build (Linear.new in_channels num_classes) (Linear.new in_channels (num_classes * 4)).
End FastRCNNPredictor.

Module BalancedPositiveNegativeSampler.
Record t : Type := new { batch_size_per_image : Z; positive_fraction : float }.
End BalancedPositiveNegativeSampler.

Module BoxCoder.
Record t : Type := new { weights : list float }.
End BoxCoder.

Module RoIHeads.
(** [torchvision.models.detection.roi_heads.RoIHeads], as the Faster R-CNN
    builders create it. *)
Record t : Type := new {
  box_roi_pool : NNModule;
  box_head : NNModule;
  box_predictor : FastRCNNPredictor.t;
  proposal_matcher : Matcher.t;
  fg_bg_sampler : BalancedPositiveNegativeSampler.t;
  box_coder : BoxCoder.t;
  score_thresh : float;
  nms_thresh : float;
  detections_per_img : Z
}.

Definition set_box_predictor (v : FastRCNNPredictor.t) (h : t) : t :=
  new (box_roi_pool h) (box_head h) v (proposal_matcher h) (fg_bg_sampler h)
      (box_coder h) (score_thresh h) (nms_thresh h) (detections_per_img h).

Definition set_proposal_matcher (v : Matcher.t) (h : t) : t :=
  new (box_roi_pool h) (box_head h) (box_predictor h) v (fg_bg_sampler h)
      (box_coder h) (score_thresh h) (nms_thresh h) (detections_per_img h).

Definition set_score_thresh (v : float) (h : t) : t :=
  new (box_roi_pool h) (box_head h) (box_predictor h) (proposal_matcher h)
      (fg_bg_sampler h) (box_coder h) v (nms_thresh h) (detections_per_img h).

Definition set_nms_thresh (v : float) (h : t) : t :=
  new (box_roi_pool h) (box_head h) (box_predictor h) (proposal_matcher h)
      (fg_bg_sampler h) (box_coder h) (score_thresh h) v (detections_per_img h).

Definition set_detections_per_img (v : Z) (h : t) : t :=
  new (box_roi_pool h) (box_head h) (box_predictor h) (proposal_matcher h)
      (fg_bg_sampler h) (box_coder h) (score_thresh h) (nms_thresh h) v.

(** An assignment below [proposal_matcher]. *)
Definition in_proposal_matcher (f : Matcher.t -> Matcher.t) (h : t) : t :=
  set_proposal_matcher (f (proposal_matcher h)) h.
End RoIHeads.

Module FastRCNNPredictorWithAuthor.
(** Modelled from the spec: [custom_roi_heads.FastRCNNPredictorWithAuthor]
    is imported by [model.py] but its file is not part of the sources.  The
    specification only speaks of a secondary author classification branch, so
    the object is the record of the three arguments [model.py] constructs it
    with. *)
Record t : Type := new { in_features : Z; n_classes : Z; n_authors : Z }.
End FastRCNNPredictorWithAuthor.

(** What [box_predictor] of the author-aware RoI heads can hold: the
    predictor it was constructed with, or the one assigned afterwards. *)
Inductive BoxPredictor : Type :=
| predictor (p : FastRCNNPredictor.t)
| predictor_with_author (p : FastRCNNPredictorWithAuthor.t).

Module CustomRoIHeads.
(** Modelled from the spec: [custom_roi_heads.CustomRoIHeads] is imported
    by [model.py] but its file is not part of the sources, and the
    specification does not describe its internals.  The object is the record
    of the eleven positional arguments of its constructor call, in call order
    and under the parameter names of torchvision's [RoIHeads.__init__], whose
    order the call follows; [box_predictor] is also the attribute that
    [model.py] assigns afterwards. *)
Record t : Type := new {
  box_roi_pool : NNModule;
  box_head : NNModule;
  box_predictor : BoxPredictor;
  fg_iou_thresh : float;
  bg_iou_thresh : float;
  batch_size_per_image : Z;
  positive_fraction : float;
  bbox_reg_weights : list float;
  score_thresh : float;
  nms_thresh : float;
  detections_per_img : Z
}.

Definition set_box_predictor (v : BoxPredictor) (h : t) : t :=
  new (box_roi_pool h) (box_head h) v (fg_iou_thresh h) (bg_iou_thresh h)
      (batch_size_per_image h) (positive_fraction h) (bbox_reg_weights h)
      (score_thresh h) (nms_thresh h) (detections_per_img h).
End CustomRoIHeads.

(** [model.roi_heads] once [create_fasterrcnn] is done with it. *)
Inductive AnyRoIHeads : Type :=
| torch_roi_heads (h : RoIHeads.t)
| custom_roi_heads (h : CustomRoIHeads.t).

Module FasterRCNN.
(** [torchvision.models.detection.faster_rcnn.FasterRCNN], over the class
    [R] of its [roi_heads]: [RoIHeads.t] as the builders return it,
    [AnyRoIHeads] after [create_fasterrcnn]. *)
Record t (R : Type) : Type := new {
  backbone : NNModule;
  rpn : RegionProposalNetwork.t;
  roi_heads : R
}.

Definition set_rpn {R : Type} (v : RegionProposalNetwork.t) (m : t R) : t R :=
  new (backbone m) v (roi_heads m).

Definition set_roi_heads {R R' : Type} (v : R') (m : t R) : t R' :=
  new (backbone m) (rpn m) v.

(** An assignment below [rpn]. *)
Definition in_rpn {R : Type} (f : RegionProposalNetwork.t -> RegionProposalNetwork.t)
  (m : t R) : t R :=
  set_rpn (f (rpn m)) m.
End FasterRCNN.

Module RetinaNetClassificationHead.
(** [torchvision.models.detection.retinanet.RetinaNetClassificationHead] *)
Record t : Type := new {
  conv : NNModule;
  cls_logits : Conv2d.t;
  num_classes : Z;
  num_anchors : Z
}.

Definition set_num_classes (v : Z) (h : t) : t :=
  new (conv h) (cls_logits h) v (num_anchors h).

Definition set_cls_logits (v : Conv2d.t) (h : t) : t :=
  new (conv h) v (num_classes h) (num_anchors h).
End RetinaNetClassificationHead.

Module RetinaNetHead.
Record t : Type := new {
  classification_head : RetinaNetClassificationHead.t;
  regression_head : NNModule
}.

Definition set_classification_head (v : RetinaNetClassificationHead.t) (h : t) : t :=
  new v (regression_head h).
End RetinaNetHead.

Module RetinaNet.
(** [torchvision.models.detection.retinanet.RetinaNet] *)
Record t : Type := new {
  backbone : NNModule;
  anchor_generator : AnchorGenerator.t;
  head : RetinaNetHead.t;
  proposal_matcher : Matcher.t;
  score_thresh : float;
  nms_thresh : float;
  detections_per_img : Z;
  topk_candidates : Z
}.

Definition set_head (v : RetinaNetHead.t) (m : t) : t :=
  new (backbone m) (anchor_generator m) v (proposal_matcher m) (score_thresh m)
      (nms_thresh m) (detections_per_img m) (topk_candidates m).

(** An assignment below [head.classification_head]. *)
Definition in_classification_head
  (f : RetinaNetClassificationHead.t -> RetinaNetClassificationHead.t) (m : t) : t :=
  set_head (RetinaNetHead.set_classification_head
              (f (RetinaNetHead.classification_head (head m))) (head m)) m.
End RetinaNet.

Module DefaultBoxGenerator.
(** [torchvision.models.detection.anchor_utils.DefaultBoxGenerator] *)
Record t : Type := new { aspect_ratios : list (list Z); scales : list float }.

(** [[2 + 2 * len(r) for r in self.aspect_ratios]] *)
Definition num_anchors_per_location (g : t) : list Z :=
  map (fun r => 2 + 2 * len r) (aspect_ratios g).
End DefaultBoxGenerator.

Module SSDClassificationHead.
(** [torchvision.models.detection.ssd.SSDClassificationHead] *)
Record t : Type := Build { module_list : list Conv2d.t; num_columns : Z }.

(** [SSDClassificationHead(in_channels, num_anchors, num_classes)]: one 3x3
    convolution per feature level, [num_classes * anchors] channels wide,
    Xavier-initialised. *)
Definition new (in_channels num_anchors : list Z) (num_classes : Z) : t :=
  Build
    (map (fun ca => Conv2d.new (fst ca) (num_classes * snd ca) 3 1 1
                               init_xavier_uniform (init_constant 0%float))
         (combine in_channels num_anchors))
    num_classes.
End SSDClassificationHead.

Module SSDHead.
Record t : Type := new {
  classification_head : SSDClassificationHead.t;
  regression_head : NNModule
}.

Definition set_classification_head (v : SSDClassificationHead.t) (h : t) : t :=
  new v (regression_head h).
End SSDHead.

Module SSD.
(** [torchvision.models.detection.ssd.SSD] *)
Record t : Type := new {
  backbone : NNModule;
  anchor_generator : DefaultBoxGenerator.t;
  head : SSDHead.t;
  iou_thresh : float;
  score_thresh : float;
  nms_thresh : float;
  detections_per_img : Z;
  topk_candidates : Z
}.

Definition set_head (v : SSDHead.t) (m : t) : t :=
  new (backbone m) (anchor_generator m) v (iou_thresh m) (score_thresh m)
      (nms_thresh m) (detections_per_img m) (topk_candidates m).
End SSD.

(** What the local variable [model] of [create_model] can be bound to. *)
Inductive Model : Type :=
| base_fasterrcnn (m : FasterRCNN.t RoIHeads.t)   (* as a builder returned it *)
| fasterrcnn (m : FasterRCNN.t AnyRoIHeads)       (* after [create_fasterrcnn] *)
| retinanet (m : RetinaNet.t)
| ssd (m : SSD.t).

(* ------------------------------------------------------------------ *)
(** * The configuration object *)
(* ------------------------------------------------------------------ *)

Module Args.
(** The attributes of [args] that [model.py] reads.  The flags are taken
    as booleans, the names as strings. *)
Record t : Type := new {
  model : string;
  backbone : string;
  pretrained : bool;
  trainable_backbone_layers : option Z;
  add_authors : bool;
  custom_anchors : bool;
  size8 : bool;
  size16 : bool;
  size32 : bool;
  size64 : bool;
  size128 : bool;
  size256 : bool;
  size512 : bool;
  ar05 : bool;
  ar1 : bool;
  ar2 : bool;
  box_fg_iou_threshold : float;
  box_bg_iou_threshold : float;
  box_score_threshold : float;
  box_nms_threshold : float;
  box_detections_per_img : Z;
  rpn_nms_threshold : float;
  rpn_fg_iou_threshold : float;
  rpn_bg_iou_threshold : float;
  rpn_score_threshold : float
}.
End Args.

(* ------------------------------------------------------------------ *)
(** * Runs: state, output and the ways a run ends *)
(* ------------------------------------------------------------------ *)

(** What a run leaves behind for an observer, in order: lines printed, and
    calls of the framework's model builders with their [weights] argument. *)
Inductive Event : Type :=
| ev_print (text : string)
    (* print(text) *)
| ev_print_sizes (label : string) (v : list (list Z))
    (* print(label + str(v)), the tuple left unrendered *)
| ev_print_aspect_ratios (label : string) (v : list (list float))
    (* print(label + str(v)), the tuple left unrendered *)
| ev_build (builder : string) (weights : option string).
    (* torchvision.models.detection.<builder>(weights=weights, ...) *)

Inductive Exn : Type :=
| UnboundLocalError (variable : string)
| AttributeError (attribute : string)
| IndexError.

Inductive Outcome (A : Type) : Type :=
| Returned (a : A)          (* the function returned [a] *)
| Exited (status : Z)       (* os._exit(status) ended the process *)
| Raised (e : Exn).         (* an exception left the function *)

Arguments Returned {A} a.
Arguments Exited {A} status.
Arguments Raised {A} e.

(** The result of a run over a mutable object of class [S]: how it ended,
    the object as the run left it, and the events in order. *)
Record Run (S A : Type) : Type := mkRun {
  outcome : Outcome A;
  heap : S;
  trace : list Event
}.

(** A computation over a mutable object of class [S]. *)
Definition Py (S A : Type) : Type := S -> Run S A.

Definition ret {S A : Type} (a : A) : Py S A :=
  fun s => mkRun (Returned a) s [].

Definition bind {S A B : Type} (m : Py S A) (k : A -> Py S B) : Py S B :=
  fun s =>
    match m s with
    | mkRun (Returned a) s1 t1 =>
        match k a s1 with
        | mkRun o s2 t2 => mkRun o s2 (t1 ++ t2)
        end
    | mkRun (Exited status) s1 t1 => mkRun (Exited status) s1 t1
    | mkRun (Raised e) s1 t1 => mkRun (Raised e) s1 t1
    end.

Declare Scope py_scope.
Delimit Scope py_scope with py.
Notation "x <- m ;; k" := (bind m (fun x => k))
  (at level 100, m at next level, right associativity) : py_scope.
Notation "m ;; k" := (bind m (fun _ => k))
  (at level 100, right associativity) : py_scope.

(** Read the object. *)
Definition get {S : Type} : Py S S := fun s => mkRun (Returned s) s [].

(** An attribute assignment on the object. *)
Definition assign {S : Type} (f : S -> S) : Py S unit :=
  fun s => mkRun (Returned tt) (f s) [].

Definition emit {S : Type} (e : Event) : Py S unit :=
  fun s => mkRun (Returned tt) s [e].

(** [os._exit(status)] *)
Definition os_exit {S A : Type} (status : Z) : Py S A :=
  fun s => mkRun (Exited status) s [].

Definition raise {S A : Type} (e : Exn) : Py S A :=
  fun s => mkRun (Raised e) s [].

(** [l[0]] *)
Definition item0 {S A : Type} (l : list A) : Py S A :=
  match l with
  | x :: _ => ret x
  | [] => raise IndexError
  end.

(** [range(n)] *)
Definition range (n : Z) : list Z := map Z.of_nat (seq 0 (Z.to_nat n)).

(** A callee that mutates the object a caller's variable is bound to: the
    caller's state is that variable, and it sees the object as the callee
    left it, also when the callee did not return. *)
Definition call_on {S T A : Type} (bound : T -> S) (r : Run T A) : Py S A :=
  fun _ => mkRun (outcome r) (bound (heap r)) (trace r).

(** A callee that works on an object of its own. *)
Definition call {S T A : Type} (r : Run T A) : Py S A :=
  fun s => mkRun (outcome r) s (trace r).

(** Reading a local variable, bound or not. *)
Definition local {V : Type} (name : string) : Py (option V) V :=
  fun s =>
    match s with
    | Some v => mkRun (Returned v) s []
    | None => mkRun (Raised (UnboundLocalError name)) s []
    end.

(** Binding a local variable. *)
Definition bind_local {V : Type} (v : V) : Py (option V) unit :=
  assign (fun _ => Some v).

(* ------------------------------------------------------------------ *)
(** * The model builders of the framework *)
(* ------------------------------------------------------------------ *)

(** The five builders of [torchvision.models.detection] that [model.py]
    calls, by their [weights] argument and, for Faster R-CNN, their
    [trainable_backbone_layers] argument.  What they return is the
    framework's business; the functions below are stated for any of them. *)
Class Torchvision : Type := {
  fasterrcnn_resnet50_fpn : option string -> option Z -> FasterRCNN.t RoIHeads.t;
  fasterrcnn_resnet50_fpn_v2 : option string -> option Z -> FasterRCNN.t RoIHeads.t;
  fasterrcnn_mobilenet_v3_large_fpn : option string -> option Z -> FasterRCNN.t RoIHeads.t;
  retinanet_resnet50_fpn_v2 : option string -> RetinaNet.t;
  ssd300_vgg16 : option string -> SSD.t
}.

(* ------------------------------------------------------------------ *)
(** * model.py *)
(* ------------------------------------------------------------------ *)

Local Open Scope py_scope.

(** [set_anchor(model, args)], lines 10-54.  The object is [model]. *)
Definition set_anchor {R : Type} (args : Args.t) : Py (FasterRCNN.t R) unit :=
  let tuple_sizes_list : list (list Z) := [] in
  let tuple_aspect_ratios_list : list float := [] in
  let tuple_sizes_list :=
    if Args.size8 args then tuple_sizes_list ++ [[8]] else tuple_sizes_list in
  let tuple_sizes_list :=
    if Args.size16 args then tuple_sizes_list ++ [[16]] else tuple_sizes_list in
  let tuple_sizes_list :=
    if Args.size32 args then tuple_sizes_list ++ [[32]] else tuple_sizes_list in
  let tuple_sizes_list :=
    if Args.size64 args then tuple_sizes_list ++ [[64]] else tuple_sizes_list in
  let tuple_sizes_list :=
    if Args.size128 args then tuple_sizes_list ++ [[128]] else tuple_sizes_list in
  let tuple_sizes_list :=
    if Args.size256 args then tuple_sizes_list ++ [[256]] else tuple_sizes_list in
  let tuple_sizes_list :=
    if Args.size512 args then tuple_sizes_list ++ [[512]] else tuple_sizes_list in
  let tuple_aspect_ratios_list :=
    if Args.ar05 args then tuple_aspect_ratios_list ++ [0.5%float]
    else tuple_aspect_ratios_list in
  let tuple_aspect_ratios_list :=
    if Args.ar1 args then tuple_aspect_ratios_list ++ [1.0%float]
    else tuple_aspect_ratios_list in
  let tuple_aspect_ratios_list :=
    if Args.ar2 args then tuple_aspect_ratios_list ++ [2.0%float]
    else tuple_aspect_ratios_list in
  (if negb (len tuple_sizes_list =? 5) then
     (* check the number of sizes (number of outputs of FPN is equal to 5) *)
     emit (ev_print "Number of sizes must be equal to 5") ;;
     os_exit 1
   else ret tt) ;;
  (* create tuple for anchors sizes *)
  let sizes := tuple_sizes_list in
  (* create tuple for anchors aspect ratios *)
  let aspect_ratios := tuple_mul tuple_aspect_ratios_list (len sizes) in
  (* replace default sizes with custom sizes *)
  assign (FasterRCNN.in_rpn (RegionProposalNetwork.in_anchor_generator
            (AnchorGenerator.set_sizes sizes))) ;;
  (* replace default aspect ratios with custom aspect ratios *)
  assign (FasterRCNN.in_rpn (RegionProposalNetwork.in_anchor_generator
            (AnchorGenerator.set_aspect_ratios aspect_ratios))) ;;
  let anchor_generator :=
    AnchorGenerator.new sizes (map (fun _ => tuple_aspect_ratios_list) (range 5)) in
  (* replace anchor_generator with custom generator *)
  assign (FasterRCNN.in_rpn
            (RegionProposalNetwork.set_anchor_generator anchor_generator)) ;;
  (* 256 because that's the number of features that FPN returns *)
  num_anchors <- item0 (AnchorGenerator.num_anchors_per_location anchor_generator) ;;
  assign (FasterRCNN.in_rpn
            (RegionProposalNetwork.set_head (RPNHead.new 256 num_anchors))).

(** [create_fasterrcnn(n_classes, n_authors, model, args)], lines 90-134.
    The object is [model]: lines 100-118 give it the RoI heads of its final
    class, the rest of the body runs on it. *)
Definition create_fasterrcnn (n_classes n_authors : Z)
  (model : FasterRCNN.t RoIHeads.t) (args : Args.t)
  : Run (FasterRCNN.t AnyRoIHeads) (FasterRCNN.t AnyRoIHeads) :=
  let roi_heads := FasterRCNN.roi_heads model in
  (* get the number of input features *)
  let in_features :=
    Linear.in_features (FastRCNNPredictor.cls_score (RoIHeads.box_predictor roi_heads)) in
  let roi_heads :=
    if Args.add_authors args then
      (* change the default RoIHeads with CustomRoIHeads *)
      let roi_heads :=
        CustomRoIHeads.new
          (RoIHeads.box_roi_pool roi_heads)
          (RoIHeads.box_head roi_heads)
          (predictor (RoIHeads.box_predictor roi_heads))
          (Args.box_fg_iou_threshold args)
          (Args.box_bg_iou_threshold args)
          (BalancedPositiveNegativeSampler.batch_size_per_image
             (RoIHeads.fg_bg_sampler roi_heads))
          (BalancedPositiveNegativeSampler.positive_fraction
             (RoIHeads.fg_bg_sampler roi_heads))
          (BoxCoder.weights (RoIHeads.box_coder roi_heads))
          (Args.box_score_threshold args)
          (Args.box_nms_threshold args)
          (Args.box_detections_per_img args) in
      (* change the default FastRCNNPredictor (the top level head) with a
         custom FastRCNNPredictor *)
      custom_roi_heads
        (CustomRoIHeads.set_box_predictor
           (predictor_with_author
              (FastRCNNPredictorWithAuthor.new in_features n_classes n_authors))
           roi_heads)
    else
      (* define a new head for the detector with required number of classes *)
      let roi_heads :=
        RoIHeads.set_box_predictor (FastRCNNPredictor.new in_features n_classes)
                                   roi_heads in
      (* setting classification network threshold values *)
      let roi_heads := RoIHeads.set_nms_thresh (Args.box_nms_threshold args) roi_heads in
      let roi_heads := RoIHeads.set_score_thresh (Args.box_score_threshold args) roi_heads in
      let roi_heads :=
        RoIHeads.in_proposal_matcher
          (Matcher.set_low_threshold (Args.box_bg_iou_threshold args)) roi_heads in
      let roi_heads :=
        RoIHeads.in_proposal_matcher
          (Matcher.set_high_threshold (Args.box_fg_iou_threshold args)) roi_heads in
      let roi_heads :=
        RoIHeads.set_detections_per_img (Args.box_detections_per_img args) roi_heads in
      torch_roi_heads roi_heads in
  ((* setting RPN network threshold values *)
   assign (FasterRCNN.in_rpn
             (RegionProposalNetwork.set_nms_thresh (Args.rpn_nms_threshold args))) ;;
   assign (FasterRCNN.in_rpn (RegionProposalNetwork.in_proposal_matcher
             (Matcher.set_low_threshold (Args.rpn_fg_iou_threshold args)))) ;;
   assign (FasterRCNN.in_rpn (RegionProposalNetwork.in_proposal_matcher
             (Matcher.set_high_threshold (Args.rpn_bg_iou_threshold args)))) ;;
   assign (FasterRCNN.in_rpn
             (RegionProposalNetwork.set_score_thresh (Args.rpn_score_threshold args))) ;;
   (if Args.custom_anchors args then
      (* set sizes and aspect ratio of anchors *)
      set_anchor args
    else ret tt) ;;
   model <- get ;;
   emit (ev_print_sizes "Anchors sizes: "
           (AnchorGenerator.sizes
              (RegionProposalNetwork.anchor_generator (FasterRCNN.rpn model)))) ;;
   emit (ev_print_aspect_ratios "Anchors aspect ratios: "
           (AnchorGenerator.aspect_ratios
              (RegionProposalNetwork.anchor_generator (FasterRCNN.rpn model)))) ;;
   ret model)
    (FasterRCNN.set_roi_heads roi_heads model).

(** [('DEFAULT' if args.pretrained else None)] *)
Definition weights_of (args : Args.t) : option string :=
  if Args.pretrained args then Some "DEFAULT" else None.

Section ModelPy.
Context {torchvision : Torchvision}.

(** [create_retinanet(n_classes, args)], lines 136-155.  The object is the
    model that line 145 loads. *)
Definition create_retinanet (n_classes : Z) (args : Args.t) : Run RetinaNet.t RetinaNet.t :=
  ((* load model *)
   emit (ev_build "retinanet_resnet50_fpn_v2" (weights_of args)) ;;
   model <- get ;;
   let num_anchors :=
     RetinaNetClassificationHead.num_anchors
       (RetinaNetHead.classification_head (RetinaNet.head model)) in
   assign (RetinaNet.in_classification_head
             (RetinaNetClassificationHead.set_num_classes n_classes)) ;;
   let cls_logits :=
     Conv2d.new 256 (num_anchors * n_classes) 3 1 1 init_default init_default in
   let cls_logits := Conv2d.set_weight (init_normal 0.01%float) cls_logits in
   let cls_logits :=
     Conv2d.set_bias (init_constant_neg_log ((1 - 0.01) / 0.01)%float) cls_logits in
   (* assign cls head to model *)
   assign (RetinaNet.in_classification_head
             (RetinaNetClassificationHead.set_cls_logits cls_logits)) ;;
   get)
    (retinanet_resnet50_fpn_v2 (weights_of args)).

(** [create_ssd300(n_classes, args)], lines 157-170.  The object is the
    model that line 163 loads. *)
Definition create_ssd300 (n_classes : Z) (args : Args.t) : Run SSD.t SSD.t :=
  (emit (ev_build "ssd300_vgg16" (weights_of args)) ;;
   model <- get ;;
   (* get num anchor *)
   let num_anchors :=
     DefaultBoxGenerator.num_anchors_per_location (SSD.anchor_generator model) in
   let in_channels :=
     map Conv2d.in_channels
         (SSDClassificationHead.module_list
            (SSDHead.classification_head (SSD.head model))) in
   (* add new classification head with custom number of classes *)
   assign (fun model =>
             SSD.set_head
               (SSDHead.set_classification_head
                  (SSDClassificationHead.new in_channels num_anchors n_classes)
                  (SSD.head model))
               model) ;;
   get)
    (ssd300_vgg16 (weights_of args)).

(** [create_model(n_classes, n_authors, args)], lines 56-88.  The object
    is the local variable [model], unbound when the call starts. *)
Definition create_model (n_classes n_authors : Z) (args : Args.t) : Run (option Model) Model :=
  ((if String.eqb (Args.model args) "fasterrcnn" then
      (if String.eqb (Args.backbone args) "resnet50" then
         (* create Faster R-CNN model with ResNet50-FPN backbone *)
         emit (ev_build "fasterrcnn_resnet50_fpn" (weights_of args)) ;;
         bind_local (base_fasterrcnn
                       (fasterrcnn_resnet50_fpn
                          (weights_of args) (Args.trainable_backbone_layers args)))
       else if String.eqb (Args.backbone args) "resnet50v2" then
         (* create Faster R-CNN model with ResNet50-FPN backbone *)
         emit (ev_build "fasterrcnn_resnet50_fpn_v2" (weights_of args)) ;;
         bind_local (base_fasterrcnn
                       (fasterrcnn_resnet50_fpn_v2
                          (weights_of args) (Args.trainable_backbone_layers args)))
       else if String.eqb (Args.backbone args) "mobilenet" then
         (* create Faster R-CNN model with MobileNetV3-Large backbone *)
         emit (ev_build "fasterrcnn_mobilenet_v3_large_fpn" (weights_of args)) ;;
         bind_local (base_fasterrcnn
                       (fasterrcnn_mobilenet_v3_large_fpn
                          (weights_of args) (Args.trainable_backbone_layers args)))
       else ret tt) ;;
      model <- local "model" ;;
      match model with
      | base_fasterrcnn model =>
          model <- call_on (fun m => Some (fasterrcnn m))
                     (create_fasterrcnn n_classes n_authors model args) ;;
          bind_local (fasterrcnn model)
      | _ => raise (AttributeError "roi_heads")
      end
    else if String.eqb (Args.model args) "retinanet" then
      (* create RetinaNet model with ResNet50-FPN backbone *)
      model <- call (create_retinanet n_classes args) ;;
      bind_local (retinanet model)
    else if String.eqb (Args.model args) "ssd" then
      (* create SSD300 model with VGG-16 backbone *)
      model <- call (create_ssd300 n_classes args) ;;
      bind_local (ssd model)
    else ret tt) ;;
   local "model")
    None.

End ModelPy.

(* ------------------------------------------------------------------ *)
(** * Vocabulary of the specification *)
(* ------------------------------------------------------------------ *)

(** The menu of anchor sizes: each flag of [args] with the size it selects. *)
Definition size_menu (args : Args.t) : list (bool * Z) :=
  [ (Args.size8 args, 8); (Args.size16 args, 16); (Args.size32 args, 32);
    (Args.size64 args, 64); (Args.size128 args, 128); (Args.size256 args, 256);
    (Args.size512 args, 512) ].

(** The menu of aspect ratios. *)
Definition aspect_ratio_menu (args : Args.t) : list (bool * float) :=
  [ (Args.ar05 args, 0.5%float); (Args.ar1 args, 1.0%float); (Args.ar2 args, 2.0%float) ].

(** The entries of a menu whose flag is set, in menu order. *)
Definition selected {A : Type} (menu : list (bool * A)) : list A :=
  map snd (filter fst menu).

(** The number of size flags that are set. *)
Definition n_selected_sizes (args : Args.t) : Z := len (selected (size_menu args)).

(** The sizes that are selected, one one-element tuple per feature level. *)
Definition selected_sizes (args : Args.t) : list (list Z) :=
  map (fun s => [s]) (selected (size_menu args)).

(** The aspect ratios that are selected. *)
Definition selected_aspect_ratios (args : Args.t) : list float :=
  selected (aspect_ratio_menu args).

(** The fixed enumeration of architectures and backbones. *)
Definition supported_backbone (args : Args.t) : bool :=
  String.eqb (Args.backbone args) "resnet50"
  || String.eqb (Args.backbone args) "resnet50v2"
  || String.eqb (Args.backbone args) "mobilenet".

Definition supported (args : Args.t) : bool :=
  (String.eqb (Args.model args) "fasterrcnn" && supported_backbone args)
  || String.eqb (Args.model args) "retinanet"
  || String.eqb (Args.model args) "ssd".

(** The configuration asks for custom anchors from a number of sizes that
    [set_anchor] rejects. *)
Definition rejected_anchors (args : Args.t) : bool :=
  String.eqb (Args.model args) "fasterrcnn"
  && Args.custom_anchors args
  && negb (n_selected_sizes args =? 5).

(** The builder calls among the events of a run. *)
Definition builds (t : list Event) : list (string * option string) :=
  flat_map (fun e => match e with ev_build b w => [(b, w)] | _ => [] end) t.

(** The model as the RPN part of [set_anchor] leaves it: a fresh anchor
    generator over [sizes] with [ratios] at each of five levels, and a fresh
    RPN head. *)
Definition with_anchors {R : Type} (sizes : list (list Z)) (ratios : list float)
  (model : FasterRCNN.t R) : FasterRCNN.t R :=
  FasterRCNN.in_rpn
    (fun rpn =>
       RegionProposalNetwork.set_head (RPNHead.new 256 (len ratios))
         (RegionProposalNetwork.set_anchor_generator
            (AnchorGenerator.new sizes (repeat ratios 5)) rpn))
    model.

(* ------------------------------------------------------------------ *)
(** * A concrete framework and concrete configurations *)
(* ------------------------------------------------------------------ *)

Module Defaults.
(** What the five builders return for their default arguments in
    torchvision, as far as the records above go.  Used to run the functions
    of [model.py] on examples. *)

Local Open Scope float_scope.

Definition three_ratios : list float := [0.5; 1.0; 2.0].

Definition roi_heads : RoIHeads.t :=
  RoIHeads.new (nn_module "MultiScaleRoIAlign") (nn_module "TwoMLPHead")
    (FastRCNNPredictor.new 1024 91)
    (Matcher.new 0.5 0.5 false)
    (BalancedPositiveNegativeSampler.new 512 0.25)
    (BoxCoder.new [10.0; 10.0; 5.0; 5.0])
    0.05 0.5 100%Z.

Definition resnet50_fpn : FasterRCNN.t RoIHeads.t :=
  FasterRCNN.new (nn_module "resnet50_fpn")
    (RegionProposalNetwork.new
       (AnchorGenerator.new [[32]; [64]; [128]; [256]; [512]]%Z (repeat three_ratios 5))
       (RPNHead.new 256 3)
       (Matcher.new 0.7 0.3 true)
       0.7 0.0)
    roi_heads.

Definition mobilenet_v3_large_fpn : FasterRCNN.t RoIHeads.t :=
  FasterRCNN.new (nn_module "mobilenet_v3_large_fpn")
    (RegionProposalNetwork.new
       (AnchorGenerator.new (repeat [32; 64; 128; 256; 512]%Z 3) (repeat three_ratios 3))
       (RPNHead.new 256 15)
       (Matcher.new 0.7 0.3 true)
       0.7 0.05)
    roi_heads.

Definition retinanet_model : RetinaNet.t :=
  RetinaNet.new (nn_module "resnet50_fpn")
    (AnchorGenerator.new
       [[32; 40; 50]; [64; 80; 101]; [128; 161; 203]; [256; 322; 406]; [512; 645; 812]]%Z
       (repeat three_ratios 5))
    (RetinaNetHead.new
       (RetinaNetClassificationHead.new (nn_module "conv")
          (Conv2d.new 256 (9 * 91) 3 1 1 (init_normal 0.01)
                      (init_constant_neg_log ((1 - 0.01) / 0.01)))
          91 9)
       (nn_module "RetinaNetRegressionHead"))
    (Matcher.new 0.5 0.4 true)
    0.05 0.5 300%Z 1000%Z.

Definition ssd_model : SSD.t :=
  SSD.new (nn_module "vgg16")
    (DefaultBoxGenerator.new [[2]; [2; 3]; [2; 3]; [2; 3]; [2]; [2]]%Z
       [0.07; 0.15; 0.33; 0.51; 0.69; 0.87; 1.05])
    (SSDHead.new
       (SSDClassificationHead.new [512; 1024; 512; 256; 256; 256]%Z [4; 6; 6; 6; 4; 4]%Z 91)
       (nn_module "SSDRegressionHead"))
    0.5 0.01 0.45 200%Z 400%Z.

Definition library : Torchvision := {|
  fasterrcnn_resnet50_fpn := fun _ _ => resnet50_fpn;
  fasterrcnn_resnet50_fpn_v2 := fun _ _ => resnet50_fpn;
  fasterrcnn_mobilenet_v3_large_fpn := fun _ _ => mobilenet_v3_large_fpn;
  retinanet_resnet50_fpn_v2 := fun _ => retinanet_model;
  ssd300_vgg16 := fun _ => ssd_model
|}.

(** A configuration with thresholds apart from the framework's defaults,
    by architecture, backbone, the three switches and the ten menu flags. *)
Definition config (model backbone : string) (pretrained add_authors custom_anchors : bool)
  (size8 size16 size32 size64 size128 size256 size512 ar05 ar1 ar2 : bool) : Args.t :=
  Args.new model backbone pretrained (Some 3%Z)
    add_authors custom_anchors
    size8 size16 size32 size64 size128 size256 size512
    ar05 ar1 ar2
    0.75 0.25 0.125 0.375 50%Z
    0.625 0.875 0.0625 0.03125.

(** No custom anchors. *)
Definition plain (model backbone : string) (pretrained add_authors : bool) : Args.t :=
  config model backbone pretrained add_authors false
    false false false false false false false false false false.

(** Custom anchors from the five sizes 16 to 256 and the ratios 0.5 and 2. *)
Definition five_sizes (model backbone : string) : Args.t :=
  config model backbone true false true
    false true true true true true false true false true.

(** Custom anchors from the five sizes 8 to 128 and no ratio. *)
Definition five_sizes_no_ratio (model backbone : string) : Args.t :=
  config model backbone true false true
    true true true true true false false false false false.

(** Custom anchors from all seven sizes. *)
Definition seven_sizes (model backbone : string) : Args.t :=
  config model backbone true false true
    true true true true true true true true true true.

End Defaults.

(* ------------------------------------------------------------------ *)
(** * Vocabulary over models *)
(* ------------------------------------------------------------------ *)

(** [roi_heads.box_predictor], whichever class the RoI heads have. *)
Definition box_predictor_of (h : AnyRoIHeads) : BoxPredictor :=
  match h with
  | torch_roi_heads h => predictor (RoIHeads.box_predictor h)
  | custom_roi_heads h => CustomRoIHeads.box_predictor h
  end.

(** The final prediction head of a model is one built for [n_classes]
    classes: a box predictor constructed with [n_classes]; a RetinaNet
    classification head whose [num_classes] is [n_classes] and whose
    [cls_logits] is the rebuilt convolution with
    [num_anchors * n_classes] output channels; an [SSDClassificationHead]
    constructed with [n_classes]. *)
Definition head_built_for (n_classes : Z) (m : Model) : Prop :=
  match m with
  | base_fasterrcnn _ => False
  | fasterrcnn m =>
      match box_predictor_of (FasterRCNN.roi_heads m) with
      | predictor p =>
          exists in_features, p = FastRCNNPredictor.new in_features n_classes
      | predictor_with_author p =>
          exists in_features n_authors,
            p = FastRCNNPredictorWithAuthor.new in_features n_classes n_authors
      end
  | retinanet m =>
      let h := RetinaNetHead.classification_head (RetinaNet.head m) in
      RetinaNetClassificationHead.num_classes h = n_classes
      /\ RetinaNetClassificationHead.cls_logits h =
         Conv2d.new 256 (RetinaNetClassificationHead.num_anchors h * n_classes) 3 1 1
                    (init_normal 0.01%float)
                    (init_constant_neg_log ((1 - 0.01) / 0.01)%float)
  | ssd m =>
      exists in_channels num_anchors,
        SSDHead.classification_head (SSD.head m) =
        SSDClassificationHead.new in_channels num_anchors n_classes
  end.

(** The architecture a model belongs to, by the name [args.model] uses. *)
Definition architecture (m : Model) : string :=
  match m with
  | base_fasterrcnn _ => "fasterrcnn"
  | fasterrcnn _ => "fasterrcnn"
  | retinanet _ => "retinanet"
  | ssd _ => "ssd"
  end.

(** RoI heads that hold the box-detection thresholds of [args]: in the
    attributes of torchvision's [RoIHeads], or in the constructor arguments of
    [CustomRoIHeads]. *)
Definition holds_box_thresholds (args : Args.t) (h : AnyRoIHeads) : Prop :=
  match h with
  | torch_roi_heads h =>
      RoIHeads.nms_thresh h = Args.box_nms_threshold args
      /\ RoIHeads.score_thresh h = Args.box_score_threshold args
      /\ RoIHeads.detections_per_img h = Args.box_detections_per_img args
      /\ Matcher.high_threshold (RoIHeads.proposal_matcher h) = Args.box_fg_iou_threshold args
      /\ Matcher.low_threshold (RoIHeads.proposal_matcher h) = Args.box_bg_iou_threshold args
  | custom_roi_heads h =>
      CustomRoIHeads.nms_thresh h = Args.box_nms_threshold args
      /\ CustomRoIHeads.score_thresh h = Args.box_score_threshold args
      /\ CustomRoIHeads.detections_per_img h = Args.box_detections_per_img args
      /\ CustomRoIHeads.fg_iou_thresh h = Args.box_fg_iou_threshold args
      /\ CustomRoIHeads.bg_iou_thresh h = Args.box_bg_iou_threshold args
  end.

(** The class of the RoI heads follows [args.add_authors]. *)
Definition roi_heads_class_follows (args : Args.t) (h : AnyRoIHeads) : Prop :=
  match h with
  | torch_roi_heads _ => Args.add_authors args = false
  | custom_roi_heads _ => Args.add_authors args = true
  end.





Section Loading.
Context {torchvision : Torchvision}.

(** The builder that lines 66-76 of [create_model] call for
    [args.backbone], by name, with the model it returns. *)
Definition loaded_base (args : Args.t) : option (string * FasterRCNN.t RoIHeads.t) :=
  let weights := weights_of args in
  let layers := Args.trainable_backbone_layers args in
  if String.eqb (Args.backbone args) "resnet50" then
    Some ("fasterrcnn_resnet50_fpn", fasterrcnn_resnet50_fpn weights layers)
  else if String.eqb (Args.backbone args) "resnet50v2" then
    Some ("fasterrcnn_resnet50_fpn_v2", fasterrcnn_resnet50_fpn_v2 weights layers)
  else if String.eqb (Args.backbone args) "mobilenet" then
    Some ("fasterrcnn_mobilenet_v3_large_fpn",
          fasterrcnn_mobilenet_v3_large_fpn weights layers)
  else None.



End Loading.

(* ------------------------------------------------------------------ *)
(** * Theorems *)
(* ------------------------------------------------------------------ *)

Unset Implicit Arguments.

(* ------------------------------------------------------------------ *)
(** * Runs of [set_anchor] *)
(* ------------------------------------------------------------------ *)

(** The two ways [set_anchor] ends. *)
Lemma set_anchor_run (R : Type) (args : Args.t) (model : FasterRCNN.t R) :
  set_anchor args model =
  if n_selected_sizes args =? 5
  then mkRun (Returned tt)
             (with_anchors (selected_sizes args) (selected_aspect_ratios args) model) []
  else mkRun (Exited 1) model [ev_print "Number of sizes must be equal to 5"].
Proof.
  destruct args as [m b p t aa ca s8 s16 s32 s64 s128 s256 s512 a05 a1 a2
                    bf bb bs bn bd rn rf rb rs].
  destruct s8, s16, s32, s64, s128, s256, s512; try reflexivity;
    destruct a05, a1, a2; reflexivity.
Qed.

(** Run [create_fasterrcnn] along its three switches. *)
Ltac run_create_fasterrcnn args :=
  unfold create_fasterrcnn, bind, assign, get, emit, ret;
  cbn [outcome heap trace];
  destruct (Args.add_authors args) eqn:?, (Args.custom_anchors args) eqn:?;
  cbn [outcome heap trace];
  rewrite ?set_anchor_run;
  destruct (n_selected_sizes args =? 5) eqn:?;
  cbn [outcome heap trace andb negb].

(** [create_fasterrcnn] returns the model it worked on, or the process
    has exited in [set_anchor]. *)
Lemma create_fasterrcnn_outcome n_classes n_authors model args :
  let r := create_fasterrcnn n_classes n_authors model args in
  outcome r =
  if Args.custom_anchors args && negb (n_selected_sizes args =? 5)
  then Exited 1 else Returned (heap r).
Proof.
  run_create_fasterrcnn args. 
  all: try reflexivity.
Qed.

(** One size tuple per selected flag. *)
Lemma selected_sizes_len (args : Args.t) :
  len (selected_sizes args) = n_selected_sizes args.
Proof.
  unfold selected_sizes, n_selected_sizes, len. now rewrite length_map.
Qed.

Section Runs.
Context {torchvision : Torchvision}.

(** [create_retinanet] and [create_ssd300] always return, after one builder call. *)
Lemma create_retinanet_run n_classes args :
  let r := create_retinanet n_classes args in
  outcome r = Returned (heap r)
  /\ trace r = [ev_build "retinanet_resnet50_fpn_v2" (weights_of args)].
Proof. split; reflexivity. Qed.

Lemma create_ssd300_run n_classes args :
  let r := create_ssd300 n_classes args in
  outcome r = Returned (heap r)
  /\ trace r = [ev_build "ssd300_vgg16" (weights_of args)].
Proof. split; reflexivity. Qed.

(** [create_model], branch by branch. *)
Lemma create_model_run n_classes n_authors args :
  create_model n_classes n_authors args =
  if String.eqb (Args.model args) "fasterrcnn" then
    match loaded_base args with
    | Some (name, base) =>
        let r := create_fasterrcnn n_classes n_authors base args in
        mkRun (if Args.custom_anchors args && negb (n_selected_sizes args =? 5)
               then Exited 1 else Returned (fasterrcnn (heap r)))
              (Some (fasterrcnn (heap r)))
              (ev_build name (weights_of args) :: trace r)
    | None => mkRun (Raised (UnboundLocalError "model")) None []
    end
  else if String.eqb (Args.model args) "retinanet" then
    let m := heap (create_retinanet n_classes args) in
    mkRun (Returned (retinanet m)) (Some (retinanet m))
          [ev_build "retinanet_resnet50_fpn_v2" (weights_of args)]
  else if String.eqb (Args.model args) "ssd" then
    let m := heap (create_ssd300 n_classes args) in
    mkRun (Returned (ssd m)) (Some (ssd m)) [ev_build "ssd300_vgg16" (weights_of args)]
  else mkRun (Raised (UnboundLocalError "model")) None [].
Proof.
  unfold create_model, loaded_base.
  destruct (String.eqb (Args.model args) "fasterrcnn").
  - destruct (String.eqb (Args.backbone args) "resnet50");
      [| destruct (String.eqb (Args.backbone args) "resnet50v2");
         [| destruct (String.eqb (Args.backbone args) "mobilenet") ] ];
      try reflexivity;
      unfold bind, emit, bind_local, assign, local, call_on;
      cbn [outcome heap trace app];
      rewrite create_fasterrcnn_outcome;
      destruct (Args.custom_anchors args && negb (n_selected_sizes args =? 5));
      cbn [outcome heap trace app]; rewrite ?app_nil_r; reflexivity.
  - destruct (String.eqb (Args.model args) "retinanet"); [reflexivity|].
    destruct (String.eqb (Args.model args) "ssd"); reflexivity.
Qed.

End Runs.

(* ------------------------------------------------------------------ *)
(** * [set_anchor] *)
(* ------------------------------------------------------------------ *)

Lemma float_tuples_repeat_nil :
  Forall (fun a : list float => a = []) (repeat [] 5).
Proof. repeat constructor. Qed.

Lemma with_anchors_generator (R : Type) sizes ratios (model : FasterRCNN.t R) :
  RegionProposalNetwork.anchor_generator (FasterRCNN.rpn (with_anchors sizes ratios model)) =
  AnchorGenerator.new sizes (repeat ratios 5).
Proof. reflexivity. Qed.

Lemma with_anchors_head (R : Type) sizes ratios (model : FasterRCNN.t R) :
  RegionProposalNetwork.head (FasterRCNN.rpn (with_anchors sizes ratios model)) =
  RPNHead.new 256 (len ratios).
Proof. reflexivity. Qed.

Lemma with_anchors_roi_heads (R : Type) sizes ratios (model : FasterRCNN.t R) :
  FasterRCNN.roi_heads (with_anchors sizes ratios model) = FasterRCNN.roi_heads model.
Proof. reflexivity. Qed.

(** C5.  [set_anchor] ends the process with status 1 exactly when the
    number of selected size flags is not 5; it then has printed the one line
    "Number of sizes must be equal to 5" and left the model as it was.  With
    exactly 5 flags set it returns, prints nothing, and has installed a new
    [AnchorGenerator] built from those 5 sizes. *)
Theorem set_anchor_exits_iff_not_five_sizes :
  forall (R : Type) (args : Args.t) (model : FasterRCNN.t R),
    let r := set_anchor args model in
    (outcome r = Exited 1 <-> n_selected_sizes args <> 5)
    /\ (n_selected_sizes args <> 5 ->
        trace r = [ev_print "Number of sizes must be equal to 5"] /\ heap r = model)
    /\ (n_selected_sizes args = 5 ->
        outcome r = Returned tt
        /\ trace r = []
        /\ len (selected_sizes args) = 5
        /\ RegionProposalNetwork.anchor_generator (FasterRCNN.rpn (heap r)) =
           AnchorGenerator.new (selected_sizes args)
                               (repeat (selected_aspect_ratios args) 5)).
Proof.
  intros R args model r. subst r. rewrite set_anchor_run.
  destruct (n_selected_sizes args =? 5) eqn:E; cbn [outcome heap trace].
  - apply Z.eqb_eq in E. repeat split; try congruence; try discriminate.
    + now rewrite selected_sizes_len.
  - apply Z.eqb_neq in E. repeat split; try congruence; try tauto.
Qed.

(** C8.  The aspect-ratio flags are not validated: with exactly 5 size
    flags set and none of [ar05], [ar1], [ar2], [set_anchor] returns, and the
    installed anchor generator has five aspect-ratio entries, each the empty
    tuple. *)
Theorem set_anchor_accepts_no_aspect_ratio :
  forall (R : Type) (args : Args.t) (model : FasterRCNN.t R),
    n_selected_sizes args = 5 ->
    Args.ar05 args = false -> Args.ar1 args = false -> Args.ar2 args = false ->
    let r := set_anchor args model in
    let g := RegionProposalNetwork.anchor_generator (FasterRCNN.rpn (heap r)) in
    outcome r = Returned tt
    /\ len (AnchorGenerator.aspect_ratios g) = 5
    /\ Forall (fun a => a = []) (AnchorGenerator.aspect_ratios g).
Proof.
  intros R args model Hn H05 H1 H2 r g. subst g r. rewrite set_anchor_run.
  apply Z.eqb_eq in Hn. rewrite Hn. cbn [outcome heap trace].
  unfold selected_aspect_ratios, aspect_ratio_menu. rewrite H05, H1, H2.
  repeat split. apply float_tuples_repeat_nil.
Qed.

(** C10.  After a [set_anchor] call that returned, the anchor generator in
    the RPN has exactly 5 size tuples, its aspect ratios are the selected
    tuple repeated at each of the 5 levels, and the RPN head is
    [RPNHead(256, n)] for [n] the first entry of the generator's
    [num_anchors_per_location()], which is the number of selected aspect
    ratios. *)
Theorem set_anchor_leaves_rpn_consistent :
  forall (R : Type) (args : Args.t) (model : FasterRCNN.t R),
    let r := set_anchor args model in
    outcome r = Returned tt ->
    let rpn := FasterRCNN.rpn (heap r) in
    let g := RegionProposalNetwork.anchor_generator rpn in
    len (AnchorGenerator.sizes g) = 5
    /\ AnchorGenerator.aspect_ratios g = repeat (selected_aspect_ratios args) 5
    /\ (exists n, hd_error (AnchorGenerator.num_anchors_per_location g) = Some n
                  /\ RegionProposalNetwork.head rpn = RPNHead.new 256 n
                  /\ n = len (selected_aspect_ratios args)).
Proof.
  intros R args model r. subst r. rewrite set_anchor_run.
  destruct (n_selected_sizes args =? 5) eqn:E; cbn [outcome heap trace];
    [intros _ | discriminate].
  apply Z.eqb_eq in E. rewrite <- selected_sizes_len in E.
  rewrite with_anchors_head, with_anchors_generator.
  cbn [AnchorGenerator.sizes AnchorGenerator.aspect_ratios].
  repeat split; [exact E|].
  exists (len (selected_aspect_ratios args)). repeat split.
  unfold AnchorGenerator.num_anchors_per_location.
  cbn [AnchorGenerator.sizes AnchorGenerator.aspect_ratios].
  unfold selected_sizes in *.
  destruct (selected (size_menu args)) as [|s l]; [discriminate|].
  cbn [map repeat combine hd_error fst snd Pos.to_nat Pos.iter_op Nat.add].
  f_equal. unfold len at 1. cbn [List.length Z.of_nat]. lia.
Qed.

(* ------------------------------------------------------------------ *)
(** * What [create_fasterrcnn] leaves in the model *)
(* ------------------------------------------------------------------ *)

(** The RoI heads, in either class. *)
Lemma create_fasterrcnn_roi_heads n_classes n_authors model args :
  let r := create_fasterrcnn n_classes n_authors model args in
  let roi_heads := FasterRCNN.roi_heads model in
  let in_features :=
    Linear.in_features (FastRCNNPredictor.cls_score (RoIHeads.box_predictor roi_heads)) in
  FasterRCNN.roi_heads (heap r) =
  if Args.add_authors args then
    custom_roi_heads
      (CustomRoIHeads.set_box_predictor
         (predictor_with_author
            (FastRCNNPredictorWithAuthor.new in_features n_classes n_authors))
         (CustomRoIHeads.new
            (RoIHeads.box_roi_pool roi_heads)
            (RoIHeads.box_head roi_heads)
            (predictor (RoIHeads.box_predictor roi_heads))
            (Args.box_fg_iou_threshold args)
            (Args.box_bg_iou_threshold args)
            (BalancedPositiveNegativeSampler.batch_size_per_image
               (RoIHeads.fg_bg_sampler roi_heads))
            (BalancedPositiveNegativeSampler.positive_fraction
               (RoIHeads.fg_bg_sampler roi_heads))
            (BoxCoder.weights (RoIHeads.box_coder roi_heads))
            (Args.box_score_threshold args)
            (Args.box_nms_threshold args)
            (Args.box_detections_per_img args)))
  else
    torch_roi_heads
      (RoIHeads.new
         (RoIHeads.box_roi_pool roi_heads)
         (RoIHeads.box_head roi_heads)
         (FastRCNNPredictor.new in_features n_classes)
         (Matcher.new (Args.box_fg_iou_threshold args) (Args.box_bg_iou_threshold args)
            (Matcher.allow_low_quality_matches (RoIHeads.proposal_matcher roi_heads)))
         (RoIHeads.fg_bg_sampler roi_heads)
         (RoIHeads.box_coder roi_heads)
         (Args.box_score_threshold args)
         (Args.box_nms_threshold args)
         (Args.box_detections_per_img args)).
Proof.
  run_create_fasterrcnn args; reflexivity.
Qed.

(** The RPN matcher: [high_threshold] holds [rpn_bg_iou_threshold] and
    [low_threshold] holds [rpn_fg_iou_threshold]. *)
Lemma create_fasterrcnn_rpn_matcher n_classes n_authors model args :
  let r := create_fasterrcnn n_classes n_authors model args in
  RegionProposalNetwork.proposal_matcher (FasterRCNN.rpn (heap r)) =
  Matcher.new (Args.rpn_bg_iou_threshold args) (Args.rpn_fg_iou_threshold args)
    (Matcher.allow_low_quality_matches
       (RegionProposalNetwork.proposal_matcher (FasterRCNN.rpn model))).
Proof.
  run_create_fasterrcnn args; reflexivity.
Qed.

Lemma create_fasterrcnn_rpn_thresholds n_classes n_authors model args :
  let r := create_fasterrcnn n_classes n_authors model args in
  RegionProposalNetwork.nms_thresh (FasterRCNN.rpn (heap r)) = Args.rpn_nms_threshold args
  /\ RegionProposalNetwork.score_thresh (FasterRCNN.rpn (heap r)) =
     Args.rpn_score_threshold args.
Proof.
  run_create_fasterrcnn args; split; reflexivity.
Qed.


(** [create_fasterrcnn] calls no builder. *)
Lemma create_fasterrcnn_trace n_classes n_authors model args :
  let r := create_fasterrcnn n_classes n_authors model args in
  builds (trace r) = [].
Proof.
  run_create_fasterrcnn args; reflexivity.
Qed.

Lemma holds_box_thresholds_after n_classes n_authors model args :
  let r := create_fasterrcnn n_classes n_authors model args in
  holds_box_thresholds args (FasterRCNN.roi_heads (heap r))
  /\ roi_heads_class_follows args (FasterRCNN.roi_heads (heap r)).
Proof.
  intro r. subst r. rewrite create_fasterrcnn_roi_heads.
  destruct (Args.add_authors args) eqn:E; cbn; rewrite ?E; repeat split.
Qed.

(* ------------------------------------------------------------------ *)
(** * [create_fasterrcnn] *)
(* ------------------------------------------------------------------ *)

(** Two closed floats are different when the Leibniz test tells them apart. *)
Ltac floats_differ :=
  let E := fresh "E" in
  intro E;
  match type of E with
  | ?x = ?y => apply (f_equal (fun z => PrimFloat.Leibniz.eqb z y)) in E
  end;
  vm_compute in E; discriminate E.

(** C4.  When [args.add_authors] is set, [create_fasterrcnn] leaves
    [model.roi_heads] a [CustomRoIHeads] constructed from the pooler, head
    and predictor of the original RoI heads, the box thresholds of [args] and
    the sampler and coder settings of the original, with its [box_predictor]
    then replaced by [FastRCNNPredictorWithAuthor(in_features, n_classes,
    n_authors)], [in_features] read from the original predictor's
    [cls_score]. *)
Theorem create_fasterrcnn_adds_author_branch :
  forall (n_classes n_authors : Z) (model : FasterRCNN.t RoIHeads.t) (args : Args.t),
    Args.add_authors args = true ->
    let r := create_fasterrcnn n_classes n_authors model args in
    let roi_heads := FasterRCNN.roi_heads model in
    let in_features :=
      Linear.in_features (FastRCNNPredictor.cls_score (RoIHeads.box_predictor roi_heads)) in
    FasterRCNN.roi_heads (heap r) =
    custom_roi_heads
      (CustomRoIHeads.set_box_predictor
         (predictor_with_author
            (FastRCNNPredictorWithAuthor.new in_features n_classes n_authors))
         (CustomRoIHeads.new
            (RoIHeads.box_roi_pool roi_heads)
            (RoIHeads.box_head roi_heads)
            (predictor (RoIHeads.box_predictor roi_heads))
            (Args.box_fg_iou_threshold args)
            (Args.box_bg_iou_threshold args)
            (BalancedPositiveNegativeSampler.batch_size_per_image
               (RoIHeads.fg_bg_sampler roi_heads))
            (BalancedPositiveNegativeSampler.positive_fraction
               (RoIHeads.fg_bg_sampler roi_heads))
            (BoxCoder.weights (RoIHeads.box_coder roi_heads))
            (Args.box_score_threshold args)
            (Args.box_nms_threshold args)
            (Args.box_detections_per_img args))).
Proof.
  intros n_classes n_authors model args H r roi_heads in_features.
  subst r roi_heads in_features.
  rewrite create_fasterrcnn_roi_heads, H. reflexivity.
Qed.

(** C6.  For every configuration and model, the RoI heads that
    [create_fasterrcnn] leaves hold the box thresholds of [args]
    ([box_nms_threshold], [box_score_threshold], [box_detections_per_img],
    and the fg/bg IoU thresholds as the matcher's high/low bounds): as
    attributes of torchvision's RoI heads when [args.add_authors] is false, as
    constructor arguments of [CustomRoIHeads] when it is true.  The call
    returns that model unless [set_anchor] ends the process. *)
Theorem create_fasterrcnn_holds_box_thresholds :
  forall (n_classes n_authors : Z) (model : FasterRCNN.t RoIHeads.t) (args : Args.t),
    let r := create_fasterrcnn n_classes n_authors model args in
    holds_box_thresholds args (FasterRCNN.roi_heads (heap r))
    /\ roi_heads_class_follows args (FasterRCNN.roi_heads (heap r))
    /\ outcome r =
       (if Args.custom_anchors args && negb (n_selected_sizes args =? 5)
        then Exited 1 else Returned (heap r)).
Proof.
  intros n_classes n_authors model args r. subst r.
  split; [|split].
  - apply holds_box_thresholds_after.
  - apply holds_box_thresholds_after.
  - apply create_fasterrcnn_outcome.
Qed.

(** C2, at a configuration with [rpn_fg_iou_threshold = 0.875] and
    [rpn_bg_iou_threshold = 0.0625]: [create_fasterrcnn] returns a model whose
    RPN matcher has [high_threshold = 0.0625] and [low_threshold = 0.875].
    The foreground threshold went to the lower bound and the background
    threshold to the upper bound, the reverse of the mapping used for the
    box-head matcher, which in the same model has [box_fg_iou_threshold] as
    its upper and [box_bg_iou_threshold] as its lower bound. *)
Theorem create_fasterrcnn_swaps_rpn_iou_thresholds :
  let args := Defaults.plain "fasterrcnn" "resnet50" true false in
  let r := create_fasterrcnn 5 7 Defaults.resnet50_fpn args in
  let rpn_matcher := RegionProposalNetwork.proposal_matcher (FasterRCNN.rpn (heap r)) in
  outcome r = Returned (heap r)
  /\ Args.rpn_fg_iou_threshold args = 0.875%float
  /\ Args.rpn_bg_iou_threshold args = 0.0625%float
  /\ Matcher.high_threshold rpn_matcher = 0.0625%float
  /\ Matcher.low_threshold rpn_matcher = 0.875%float
  /\ Matcher.high_threshold rpn_matcher <> Args.rpn_fg_iou_threshold args
  /\ Matcher.low_threshold rpn_matcher <> Args.rpn_bg_iou_threshold args
  /\ match FasterRCNN.roi_heads (heap r) with
     | torch_roi_heads h =>
         Matcher.high_threshold (RoIHeads.proposal_matcher h) =
         Args.box_fg_iou_threshold args
         /\ Matcher.low_threshold (RoIHeads.proposal_matcher h) =
            Args.box_bg_iou_threshold args
     | custom_roi_heads _ => False
     end.
Proof.
  cbv zeta. repeat split; try reflexivity; floats_differ.
Qed.

(* ------------------------------------------------------------------ *)
(** * [create_model] *)
(* ------------------------------------------------------------------ *)

Section CreateModel.
Context {torchvision : Torchvision}.

Lemma supported_fasterrcnn_base (args : Args.t) :
  String.eqb (Args.model args) "fasterrcnn" = true ->
  supported args = true ->
  exists name base, loaded_base args = Some (name, base).
Proof.
  intros Hm Hs. unfold supported, supported_backbone in Hs. rewrite Hm in Hs.
  apply String.eqb_eq in Hm. unfold loaded_base.
  destruct (String.eqb (Args.backbone args) "resnet50"); [eauto|].
  destruct (String.eqb (Args.backbone args) "resnet50v2"); [eauto|].
  destruct (String.eqb (Args.backbone args) "mobilenet"); [eauto|].
  rewrite Hm in Hs. discriminate Hs.
Qed.

Lemma unsupported_fasterrcnn_base (args : Args.t) :
  String.eqb (Args.model args) "fasterrcnn" = true ->
  supported args = false ->
  loaded_base args = None.
Proof.
  intros Hm Hs. unfold supported, supported_backbone in Hs. rewrite Hm in Hs.
  unfold loaded_base.
  destruct (String.eqb (Args.backbone args) "resnet50"); [discriminate Hs|].
  destruct (String.eqb (Args.backbone args) "resnet50v2"); [discriminate Hs|].
  destruct (String.eqb (Args.backbone args) "mobilenet"); [discriminate Hs|].
  reflexivity.
Qed.

Lemma head_built_for_fasterrcnn n_classes n_authors base args :
  head_built_for n_classes
    (fasterrcnn (heap (create_fasterrcnn n_classes n_authors base args))).
Proof.
  unfold head_built_for. rewrite create_fasterrcnn_roi_heads.
  destruct (Args.add_authors args); cbn; eauto.
Qed.

Lemma create_model_supported (n_classes n_authors : Z) (args : Args.t) :
  supported args = true ->
  let r := create_model n_classes n_authors args in
  exists m,
    heap r = Some m
    /\ architecture m = Args.model args
    /\ head_built_for n_classes m
    /\ outcome r = (if rejected_anchors args then Exited 1 else Returned m).
Proof.
  intros Hs r. subst r.
  rewrite create_model_run. unfold rejected_anchors.
  destruct (String.eqb (Args.model args) "fasterrcnn") eqn:Hf.
  - destruct (supported_fasterrcnn_base args Hf Hs) as (name & base & Hb).
    rewrite Hb. cbn [outcome heap trace andb].
    apply String.eqb_eq in Hf.
    eexists. repeat split.
    + now rewrite Hf.
    + apply head_built_for_fasterrcnn.
  - cbn [andb].
    destruct (String.eqb (Args.model args) "retinanet") eqn:Hr.
    + apply String.eqb_eq in Hr. cbn [outcome heap trace].
      eexists. repeat split. now rewrite Hr.
    + destruct (String.eqb (Args.model args) "ssd") eqn:Hd.
      * apply String.eqb_eq in Hd. cbn [outcome heap trace].
        eexists. repeat split; [now rewrite Hd|].
        cbn. eauto.
      * unfold supported in Hs. rewrite Hf, Hr, Hd in Hs. discriminate Hs.
Qed.

Lemma create_model_unsupported (n_classes n_authors : Z) (args : Args.t) :
  supported args = false ->
  create_model n_classes n_authors args =
  mkRun (Raised (UnboundLocalError "model")) None [].
Proof.
  intros Hs. rewrite create_model_run.
  destruct (String.eqb (Args.model args) "fasterrcnn") eqn:Hf.
  - now rewrite (unsupported_fasterrcnn_base args Hf Hs).
  - unfold supported in Hs. rewrite Hf in Hs. cbn [andb orb] in Hs.
    destruct (String.eqb (Args.model args) "retinanet"); [discriminate Hs|].
    destruct (String.eqb (Args.model args) "ssd"); [discriminate Hs|].
    reflexivity.
Qed.

(** C1.  For every supported choice of architecture and backbone,
    [create_model] leaves its local [model] bound to a model of the chosen
    architecture whose final prediction head is built for [n_classes]
    (see [head_built_for]), and returns that model, unless [set_anchor]
    rejected the anchors, in which case the process has exited with the head
    already replaced. *)
Theorem create_model_replaces_prediction_head :
  forall (n_classes n_authors : Z) (args : Args.t),
    supported args = true ->
    let r := create_model n_classes n_authors args in
    exists m,
      heap r = Some m
      /\ architecture m = Args.model args
      /\ head_built_for n_classes m
      /\ outcome r = (if rejected_anchors args then Exited 1 else Returned m).
Proof.
  intros n_classes n_authors args Hs. now apply create_model_supported.
Qed.


End CreateModel.

Section Configuration.
Context {torchvision : Torchvision}.





End Configuration.

(* ------------------------------------------------------------------ *)
(** * The theorems on concrete configurations *)
(* ------------------------------------------------------------------ *)

(** C1 on a Faster R-CNN over MobileNet with custom anchors from five sizes. *)
Lemma create_model_replaces_prediction_head_witness :
  let args := Defaults.five_sizes "fasterrcnn" "mobilenet" in
  let r := create_model (torchvision := Defaults.library) 5 7 args in
  supported args = true
  /\ exists m,
       heap r = Some m
       /\ architecture m = "fasterrcnn"
       /\ head_built_for 5 m
       /\ outcome r = Returned m.
Proof.
  split; [reflexivity|].
  exact (create_model_replaces_prediction_head
           (torchvision := Defaults.library) 5 7
           (Defaults.five_sizes "fasterrcnn" "mobilenet") eq_refl).
Defined.



(** C4 on the ResNet50 model with the author branch requested. *)
Lemma create_fasterrcnn_adds_author_branch_witness :
  let args := Defaults.plain "fasterrcnn" "resnet50" true true in
  let r := create_fasterrcnn 5 7 Defaults.resnet50_fpn args in
  Args.add_authors args = true
  /\ FasterRCNN.roi_heads (heap r) =
     custom_roi_heads
       (CustomRoIHeads.new
          (nn_module "MultiScaleRoIAlign") (nn_module "TwoMLPHead")
          (predictor_with_author (FastRCNNPredictorWithAuthor.new 1024 5 7))
          0.75%float 0.25%float 512 0.25%float
          [10.0%float; 10.0%float; 5.0%float; 5.0%float]
          0.125%float 0.375%float 50).
Proof.
  split; [reflexivity|].
  exact (create_fasterrcnn_adds_author_branch 5 7 Defaults.resnet50_fpn
           (Defaults.plain "fasterrcnn" "resnet50" true true) eq_refl).
Defined.

(** C5 on five selected sizes, and on seven. *)
Lemma set_anchor_exits_iff_not_five_sizes_witness :
  let r5 := set_anchor (Defaults.five_sizes "fasterrcnn" "resnet50") Defaults.resnet50_fpn in
  let r7 := set_anchor (Defaults.seven_sizes "fasterrcnn" "resnet50") Defaults.resnet50_fpn in
  (n_selected_sizes (Defaults.five_sizes "fasterrcnn" "resnet50") = 5
   /\ outcome r5 = Returned tt
   /\ AnchorGenerator.sizes
        (RegionProposalNetwork.anchor_generator (FasterRCNN.rpn (heap r5))) =
      [[16]; [32]; [64]; [128]; [256]])
  /\ (n_selected_sizes (Defaults.seven_sizes "fasterrcnn" "resnet50") = 7
      /\ outcome r7 = Exited 1
      /\ trace r7 = [ev_print "Number of sizes must be equal to 5"]).
Proof.
  split.
  - split; [reflexivity|].
    pose proof (proj2 (proj2 (set_anchor_exits_iff_not_five_sizes _
                                (Defaults.five_sizes "fasterrcnn" "resnet50")
                                Defaults.resnet50_fpn)) eq_refl) as (Ho & _ & _ & Hg).
    split; [exact Ho|]. cbv zeta in Hg. rewrite Hg. reflexivity.
  - split; [reflexivity|].
    pose proof (set_anchor_exits_iff_not_five_sizes _
                  (Defaults.seven_sizes "fasterrcnn" "resnet50")
                  Defaults.resnet50_fpn) as (Hi & Ht & _).
    assert (N : n_selected_sizes (Defaults.seven_sizes "fasterrcnn" "resnet50") <> 5)
      by (intro E; discriminate E).
    split; [exact (proj2 Hi N) | exact (proj1 (Ht N))].
Defined.


(** C8 on five selected sizes and no aspect ratio. *)
Lemma set_anchor_accepts_no_aspect_ratio_witness :
  let args := Defaults.five_sizes_no_ratio "fasterrcnn" "resnet50" in
  let r := set_anchor args Defaults.resnet50_fpn in
  let g := RegionProposalNetwork.anchor_generator (FasterRCNN.rpn (heap r)) in
  (n_selected_sizes args = 5
   /\ Args.ar05 args = false /\ Args.ar1 args = false /\ Args.ar2 args = false)
  /\ outcome r = Returned tt
  /\ len (AnchorGenerator.aspect_ratios g) = 5
  /\ Forall (fun a => a = []) (AnchorGenerator.aspect_ratios g).
Proof.
  split; [repeat split|].
  exact (set_anchor_accepts_no_aspect_ratio _
           (Defaults.five_sizes_no_ratio "fasterrcnn" "resnet50")
           Defaults.resnet50_fpn eq_refl eq_refl eq_refl eq_refl).
Defined.



(** C10 on five selected sizes and the ratios 0.5 and 2. *)
Lemma set_anchor_leaves_rpn_consistent_witness :
  let args := Defaults.five_sizes "fasterrcnn" "resnet50" in
  let r := set_anchor args Defaults.resnet50_fpn in
  let rpn := FasterRCNN.rpn (heap r) in
  let g := RegionProposalNetwork.anchor_generator rpn in
  outcome r = Returned tt
  /\ len (AnchorGenerator.sizes g) = 5
  /\ AnchorGenerator.aspect_ratios g = repeat [0.5%float; 2.0%float] 5
  /\ (exists n, hd_error (AnchorGenerator.num_anchors_per_location g) = Some n
                /\ RegionProposalNetwork.head rpn = RPNHead.new 256 n
                /\ n = 2).
Proof.
  split; [reflexivity|].
  exact (set_anchor_leaves_rpn_consistent _
           (Defaults.five_sizes "fasterrcnn" "resnet50") Defaults.resnet50_fpn eq_refl).
Defined.

(* ------------------------------------------------------------------ *)
(** * Further properties of [model.py] *)
(* ------------------------------------------------------------------ *)

(** X1.  [set_anchor] touches nothing but the RPN's anchor generator and
    head: whether it returns or ends the process, the backbone, the RoI heads
    and the RPN's matcher, NMS threshold and score threshold are as before. *)
Theorem set_anchor_touches_only_anchors :
  forall (R : Type) (args : Args.t) (model : FasterRCNN.t R),
    let after := heap (set_anchor args model) in
    FasterRCNN.backbone after = FasterRCNN.backbone model
    /\ FasterRCNN.roi_heads after = FasterRCNN.roi_heads model
    /\ RegionProposalNetwork.proposal_matcher (FasterRCNN.rpn after) =
       RegionProposalNetwork.proposal_matcher (FasterRCNN.rpn model)
    /\ RegionProposalNetwork.nms_thresh (FasterRCNN.rpn after) =
       RegionProposalNetwork.nms_thresh (FasterRCNN.rpn model)
    /\ RegionProposalNetwork.score_thresh (FasterRCNN.rpn after) =
       RegionProposalNetwork.score_thresh (FasterRCNN.rpn model).
Proof.
  intros R args model after. subst after. rewrite set_anchor_run.
  destruct (n_selected_sizes args =? 5); cbn [heap]; repeat split.
Qed.

(** Five one-element size tuples against five copies of one ratio tuple. *)
Lemma anchors_per_level (l : list Z) (ratios : list float) :
  List.length l = 5%nat ->
  AnchorGenerator.num_anchors_per_location
    (AnchorGenerator.new (map (fun s => [s]) l) (repeat ratios 5)) =
  repeat (len ratios) 5.
Proof.
  intro H.
  do 5 (destruct l as [|? l]; [discriminate H|]).
  destruct l; [|discriminate H].
  unfold AnchorGenerator.num_anchors_per_location.
  cbn [AnchorGenerator.sizes AnchorGenerator.aspect_ratios map repeat combine fst snd].
  replace (len [z]) with 1 by reflexivity.
  replace (len [z0]) with 1 by reflexivity.
  replace (len [z1]) with 1 by reflexivity.
  replace (len [z2]) with 1 by reflexivity.
  replace (len [z3]) with 1 by reflexivity.
  now rewrite !Z.mul_1_l.
Qed.

(** Five flags set, five menu entries selected. *)
Lemma selected_sizes_length (args : Args.t) :
  n_selected_sizes args = 5 -> List.length (selected (size_menu args)) = 5%nat.
Proof. unfold n_selected_sizes, len. lia. Qed.

(** X2.  After a [set_anchor] call that returned, the anchor generator
    reports the same number of anchors per location at each of its five
    levels, and that number is the [num_anchors] of the new RPN head: the head
    built from level 0 fits every level. *)
Theorem set_anchor_same_anchor_count_at_every_level :
  forall (R : Type) (args : Args.t) (model : FasterRCNN.t R),
    let r := set_anchor args model in
    outcome r = Returned tt ->
    let rpn := FasterRCNN.rpn (heap r) in
    AnchorGenerator.num_anchors_per_location (RegionProposalNetwork.anchor_generator rpn) =
    repeat (RPNHead.num_anchors (RegionProposalNetwork.head rpn)) 5.
Proof.
  intros R args model r. subst r. rewrite set_anchor_run.
  destruct (n_selected_sizes args =? 5) eqn:E; cbn [outcome heap]; [intros _|discriminate].
  apply Z.eqb_eq in E. cbv zeta.
  rewrite with_anchors_generator, with_anchors_head.
  cbn [RPNHead.num_anchors]. unfold selected_sizes.
  apply anchors_per_level. now apply selected_sizes_length.
Qed.

(** What is selected is on the menu. *)
Lemma selected_incl {A : Type} (menu : list (bool * A)) :
  incl (selected menu) (map snd menu).
Proof. unfold selected. apply incl_map, incl_filter. Qed.

(** Selecting from an increasing menu keeps the order. *)
Lemma selected_sorted (menu : list (bool * Z)) :
  StronglySorted Z.lt (map snd menu) -> StronglySorted Z.lt (selected menu).
Proof.
  induction menu as [|[flag x] menu IH]; intro H; [constructor|].
  cbn [map snd] in H. inversion H as [|? ? Hs Hf]; subst.
  unfold selected. cbn [filter fst]. destruct flag; cbn [map snd].
  - constructor; [now apply IH|].
    eapply incl_Forall; [apply selected_incl | exact Hf].
  - now apply IH.
Qed.

(** X3.  After a [set_anchor] call that returned, the installed sizes are
    one-element tuples over sizes of the menu 8, ..., 512 in strictly
    increasing order, whatever the flags were. *)
Theorem set_anchor_installs_increasing_sizes :
  forall (R : Type) (args : Args.t) (model : FasterRCNN.t R),
    let r := set_anchor args model in
    outcome r = Returned tt ->
    exists l,
      AnchorGenerator.sizes
        (RegionProposalNetwork.anchor_generator (FasterRCNN.rpn (heap r))) =
      map (fun s => [s]) l
      /\ StronglySorted Z.lt l
      /\ incl l [8; 16; 32; 64; 128; 256; 512].
Proof.
  intros R args model r. subst r. rewrite set_anchor_run.
  destruct (n_selected_sizes args =? 5) eqn:E; cbn [outcome heap]; [intros _|discriminate].
  exists (selected (size_menu args)). split; [reflexivity|]. split.
  - apply selected_sorted. cbn [size_menu map snd].
    repeat (apply SSorted_cons; [| repeat (apply Forall_cons; [reflexivity|]); apply Forall_nil ]).
    apply SSorted_nil.
  - apply (selected_incl (size_menu args)).
Qed.

(** X4.  Of two [set_anchor] calls in a row that both pass the size
    check, only the second shows: the run is the run of the second call
    alone. *)
Theorem set_anchor_last_call_wins :
  forall (R : Type) (first second : Args.t) (model : FasterRCNN.t R),
    n_selected_sizes first = 5 ->
    n_selected_sizes second = 5 ->
    bind (set_anchor first) (fun _ => set_anchor second) model = set_anchor second model.
Proof.
  intros R first second model H1 H2. apply Z.eqb_eq in H1, H2.
  unfold bind. rewrite (set_anchor_run R first model), H1.
  rewrite !set_anchor_run, H2. reflexivity.
Qed.



(** X7.  Without [args.add_authors], [create_fasterrcnn] keeps the RoI
    heads of torchvision with their pooler, box head, sampler, box coder and
    the matcher's [allow_low_quality_matches]; the new predictor's class
    scores read as many input features as the old one's and give
    [n_classes] outputs. *)
Theorem create_fasterrcnn_keeps_roi_heads_parts :
  forall (n_classes n_authors : Z) (model : FasterRCNN.t RoIHeads.t) (args : Args.t),
    Args.add_authors args = false ->
    let r := create_fasterrcnn n_classes n_authors model args in
    let old := FasterRCNN.roi_heads model in
    exists h,
      FasterRCNN.roi_heads (heap r) = torch_roi_heads h
      /\ RoIHeads.box_roi_pool h = RoIHeads.box_roi_pool old
      /\ RoIHeads.box_head h = RoIHeads.box_head old
      /\ RoIHeads.fg_bg_sampler h = RoIHeads.fg_bg_sampler old
      /\ RoIHeads.box_coder h = RoIHeads.box_coder old
      /\ Matcher.allow_low_quality_matches (RoIHeads.proposal_matcher h) =
         Matcher.allow_low_quality_matches (RoIHeads.proposal_matcher old)
      /\ Linear.in_features (FastRCNNPredictor.cls_score (RoIHeads.box_predictor h)) =
         Linear.in_features (FastRCNNPredictor.cls_score (RoIHeads.box_predictor old))
      /\ Linear.out_features (FastRCNNPredictor.cls_score (RoIHeads.box_predictor h)) =
         n_classes.
Proof.
  intros n_classes n_authors model args H r old. subst r old.
  rewrite create_fasterrcnn_roi_heads, H. eexists. repeat split.
Qed.

(** X8.  Without [args.add_authors], [n_authors] has no effect on
    [create_fasterrcnn]. *)
Theorem create_fasterrcnn_ignores_n_authors_without_add_authors :
  forall (n_classes : Z) (model : FasterRCNN.t RoIHeads.t) (args : Args.t),
    Args.add_authors args = false ->
    forall n_authors n_authors' : Z,
      create_fasterrcnn n_classes n_authors model args =
      create_fasterrcnn n_classes n_authors' model args.
Proof.
  intros n_classes model args H n_authors n_authors'.
  unfold create_fasterrcnn. rewrite H. reflexivity.
Qed.

(** X9.  In every branch of [create_fasterrcnn], also when the process
    ends in [set_anchor], the RPN holds [args.rpn_nms_threshold] and
    [args.rpn_score_threshold], and the backbone is the one of the model
    given. *)
Theorem create_fasterrcnn_always_sets_rpn_thresholds :
  forall (n_classes n_authors : Z) (model : FasterRCNN.t RoIHeads.t) (args : Args.t),
    let after := heap (create_fasterrcnn n_classes n_authors model args) in
    RegionProposalNetwork.nms_thresh (FasterRCNN.rpn after) = Args.rpn_nms_threshold args
    /\ RegionProposalNetwork.score_thresh (FasterRCNN.rpn after) =
       Args.rpn_score_threshold args
    /\ FasterRCNN.backbone after = FasterRCNN.backbone model.
Proof.
  intros n_classes n_authors model args after. subst after.
  split; [apply create_fasterrcnn_rpn_thresholds|].
  split; [apply create_fasterrcnn_rpn_thresholds|].
  run_create_fasterrcnn args; reflexivity.
Qed.

(** All that [create_fasterrcnn] prints when the anchors are rejected. *)
Lemma create_fasterrcnn_rejected_trace n_classes n_authors model args :
  Args.custom_anchors args && negb (n_selected_sizes args =? 5) = true ->
  trace (create_fasterrcnn n_classes n_authors model args) =
  [ev_print "Number of sizes must be equal to 5"].
Proof.
  run_create_fasterrcnn args; intro H; try discriminate H; reflexivity.
Qed.

(** The two halves of a [zip] of lists of equal length. *)
Lemma map_fst_combine_same_length {A B : Type} (l : list A) (l' : list B) :
  List.length l = List.length l' -> map fst (combine l l') = l.
Proof.
  revert l'. induction l as [|a l IH]; intros [|b l'] H; try discriminate H; [reflexivity|].
  cbn [combine map fst]. f_equal. apply IH. now injection H.
Qed.

Lemma map_snd_combine_same_length {A B : Type} (l : list A) (l' : list B) :
  List.length l = List.length l' -> map snd (combine l l') = l'.
Proof.
  revert l'. induction l as [|a l IH]; intros [|b l'] H; try discriminate H; [reflexivity|].
  cbn [combine map snd]. f_equal. apply IH. now injection H.
Qed.

(** A builder call at the head of a trace. *)
Lemma builds_cons_build (b : string) (w : option string) (t : list Event) :
  builds (ev_build b w :: t) = (b, w) :: builds t.
Proof. reflexivity. Qed.

Section SingleStage.
Context {torchvision : Torchvision}.

(** X10.  For RetinaNet and SSD, [create_model] reads nothing of its
    arguments but [n_classes], [args.model] and [args.pretrained]: two
    configurations that agree on these give the same run, whatever
    [n_authors], the backbone name, the author switch, the thresholds and the
    anchor flags are. *)
Theorem create_model_single_stage_reads_only_pretrained :
  forall (n_classes n_authors n_authors' : Z) (args args' : Args.t),
    Args.model args = "retinanet" \/ Args.model args = "ssd" ->
    Args.model args' = Args.model args ->
    Args.pretrained args' = Args.pretrained args ->
    create_model n_classes n_authors' args' = create_model n_classes n_authors args.
Proof.
  intros n_classes n_authors n_authors' args args' Hm Hsame Hp.
  rewrite !create_model_run, Hsame.
  unfold create_retinanet, create_ssd300, weights_of. rewrite Hp.
  destruct Hm as [Hm|Hm]; rewrite Hm; reflexivity.
Qed.

(** X11.  Outside the enumeration [create_model] calls no builder and
    prints nothing before it fails. *)
Theorem create_model_unsupported_does_nothing :
  forall (n_classes n_authors : Z) (args : Args.t),
    supported args = false ->
    trace (create_model n_classes n_authors args) = [].
Proof.
  intros n_classes n_authors args H. now rewrite create_model_unsupported.
Qed.

(** X12.  When the anchors are rejected, [create_model] has already
    called the Faster R-CNN builder, with the weights [args.pretrained] asks
    for: the events are that call, then the size-count message. *)
Theorem create_model_builds_before_rejecting_anchors :
  forall (n_classes n_authors : Z) (args : Args.t),
    supported args = true ->
    rejected_anchors args = true ->
    exists builder,
      trace (create_model n_classes n_authors args) =
      [ ev_build builder (if Args.pretrained args then Some "DEFAULT" else None);
        ev_print "Number of sizes must be equal to 5" ].
Proof.
  intros n_classes n_authors args Hs Hr. unfold rejected_anchors in Hr.
  rewrite create_model_run.
  destruct (String.eqb (Args.model args) "fasterrcnn") eqn:Hf; [|discriminate Hr].
  destruct (supported_fasterrcnn_base args Hf Hs) as (name & base & Hb).
  rewrite Hb. cbn [trace andb] in *. exists name.
  now rewrite create_fasterrcnn_rejected_trace.
Qed.

(** X13.  For Faster R-CNN, [args.backbone] selects the builder:
    [resnet50] calls [fasterrcnn_resnet50_fpn], [resnet50v2] calls
    [fasterrcnn_resnet50_fpn_v2], [mobilenet] calls
    [fasterrcnn_mobilenet_v3_large_fpn], each once, with the weights
    [args.pretrained] asks for and [args.trainable_backbone_layers]; the model
    configured is the one that call returned. *)
Theorem create_model_backbone_selects_builder :
  forall (n_classes n_authors : Z) (args : Args.t),
    Args.model args = "fasterrcnn" ->
    let r := create_model n_classes n_authors args in
    let weights := if Args.pretrained args then Some "DEFAULT" else None in
    let layers := Args.trainable_backbone_layers args in
    let configured base :=
      Some (fasterrcnn (heap (create_fasterrcnn n_classes n_authors base args))) in
    (Args.backbone args = "resnet50" ->
     builds (trace r) = [("fasterrcnn_resnet50_fpn", weights)]
     /\ heap r = configured (fasterrcnn_resnet50_fpn weights layers))
    /\ (Args.backbone args = "resnet50v2" ->
        builds (trace r) = [("fasterrcnn_resnet50_fpn_v2", weights)]
        /\ heap r = configured (fasterrcnn_resnet50_fpn_v2 weights layers))
    /\ (Args.backbone args = "mobilenet" ->
        builds (trace r) = [("fasterrcnn_mobilenet_v3_large_fpn", weights)]
        /\ heap r = configured (fasterrcnn_mobilenet_v3_large_fpn weights layers)).
Proof.
  intros n_classes n_authors args Hm r weights layers configured.
  subst r weights layers configured.
  rewrite create_model_run, Hm. unfold loaded_base.
  change (String.eqb "fasterrcnn" "fasterrcnn") with true. cbv iota.
  split; [|split]; intros Hb; rewrite Hb; simpl (String.eqb _ _); cbv iota;
    cbn [heap trace]; rewrite builds_cons_build, create_fasterrcnn_trace;
    split; reflexivity.
Qed.

(** X14.  When the classification head that the SSD builder returned has
    one layer per level of the default-box generator, the head that
    [create_ssd300] installs has the same layers' input channels, and
    [n_classes] times the anchors per location ([2 + 2 * len(ratios)]) as
    output channels at each level; regression head and backbone are kept. *)
Theorem create_ssd300_keeps_layer_inputs :
  forall (n_classes : Z) (args : Args.t),
    let base := ssd300_vgg16 (if Args.pretrained args then Some "DEFAULT" else None) in
    let after := heap (create_ssd300 n_classes args) in
    let old_layers :=
      SSDClassificationHead.module_list (SSDHead.classification_head (SSD.head base)) in
    let new_layers :=
      SSDClassificationHead.module_list (SSDHead.classification_head (SSD.head after)) in
    let ratios := DefaultBoxGenerator.aspect_ratios (SSD.anchor_generator base) in
    List.length old_layers = List.length ratios ->
    map Conv2d.in_channels new_layers = map Conv2d.in_channels old_layers
    /\ map Conv2d.out_channels new_layers =
       map (fun r => n_classes * (2 + 2 * len r)) ratios
    /\ SSDHead.regression_head (SSD.head after) = SSDHead.regression_head (SSD.head base)
    /\ SSD.backbone after = SSD.backbone base.
Proof.
  intros n_classes args base after old_layers new_layers ratios H.
  subst base after old_layers new_layers ratios.
  unfold create_ssd300, weights_of, bind, emit, get, assign.
  cbn [heap SSD.head SSD.set_head SSDHead.classification_head
       SSDHead.set_classification_head SSDClassificationHead.module_list
       SSDClassificationHead.new SSD.backbone SSDHead.regression_head].
  set (base := ssd300_vgg16 _) in *.
  set (old := SSDClassificationHead.module_list _) in *.
  unfold DefaultBoxGenerator.num_anchors_per_location.
  set (ratios := DefaultBoxGenerator.aspect_ratios _) in *.
  assert (L : List.length (map Conv2d.in_channels old) =
              List.length (map (fun r => 2 + 2 * len r) ratios))
    by now rewrite !length_map.
  rewrite !map_map. cbn [Conv2d.in_channels Conv2d.out_channels].
  repeat split.
  - rewrite <- (map_map fst (fun x => x)), map_id.
    now apply map_fst_combine_same_length.
  - rewrite <- (map_map snd (fun a => n_classes * a)).
    rewrite (map_snd_combine_same_length _ _ L). now rewrite map_map.
Qed.

(** X15.  [create_retinanet] keeps the backbone, the regression head, the
    convolution tower and [num_anchors] of the classification head, and
    [topk_candidates]; the rebuilt [cls_logits] has [num_anchors * n_classes]
    output channels for the [num_anchors] the builder's head had. *)
Theorem create_retinanet_changes_only_class_outputs :
  forall (n_classes : Z) (args : Args.t),
    let base :=
      retinanet_resnet50_fpn_v2 (if Args.pretrained args then Some "DEFAULT" else None) in
    let after := heap (create_retinanet n_classes args) in
    let old_head := RetinaNetHead.classification_head (RetinaNet.head base) in
    let new_head := RetinaNetHead.classification_head (RetinaNet.head after) in
    RetinaNet.backbone after = RetinaNet.backbone base
    /\ RetinaNetHead.regression_head (RetinaNet.head after) =
       RetinaNetHead.regression_head (RetinaNet.head base)
    /\ RetinaNetClassificationHead.conv new_head = RetinaNetClassificationHead.conv old_head
    /\ RetinaNetClassificationHead.num_anchors new_head =
       RetinaNetClassificationHead.num_anchors old_head
    /\ Conv2d.out_channels (RetinaNetClassificationHead.cls_logits new_head) =
       RetinaNetClassificationHead.num_anchors old_head * n_classes
    /\ RetinaNet.topk_candidates after = RetinaNet.topk_candidates base.
Proof.
  intros n_classes args. cbv zeta. repeat split.
Qed.

End SingleStage.

(** X2 on five selected sizes and two ratios: two anchors at each level. *)
Lemma set_anchor_same_anchor_count_at_every_level_witness :
  let r := set_anchor (Defaults.five_sizes "fasterrcnn" "resnet50") Defaults.resnet50_fpn in
  outcome r = Returned tt
  /\ AnchorGenerator.num_anchors_per_location
       (RegionProposalNetwork.anchor_generator (FasterRCNN.rpn (heap r))) =
     [2; 2; 2; 2; 2].
Proof.
  split; [reflexivity|].
  exact (set_anchor_same_anchor_count_at_every_level _
           (Defaults.five_sizes "fasterrcnn" "resnet50") Defaults.resnet50_fpn eq_refl).
Defined.

(** X3 on the five sizes 8 to 128. *)
Lemma set_anchor_installs_increasing_sizes_witness :
  let r := set_anchor (Defaults.five_sizes_no_ratio "fasterrcnn" "resnet50")
             Defaults.resnet50_fpn in
  outcome r = Returned tt
  /\ exists l,
       AnchorGenerator.sizes
         (RegionProposalNetwork.anchor_generator (FasterRCNN.rpn (heap r))) =
       map (fun s => [s]) l
       /\ StronglySorted Z.lt l
       /\ incl l [8; 16; 32; 64; 128; 256; 512].
Proof.
  split; [reflexivity|].
  exact (set_anchor_installs_increasing_sizes _
           (Defaults.five_sizes_no_ratio "fasterrcnn" "resnet50")
           Defaults.resnet50_fpn eq_refl).
Defined.

(** X4 on two accepted configurations in a row. *)
Lemma set_anchor_last_call_wins_witness :
  let first := Defaults.five_sizes "fasterrcnn" "resnet50" in
  let second := Defaults.five_sizes_no_ratio "fasterrcnn" "resnet50" in
  (n_selected_sizes first = 5 /\ n_selected_sizes second = 5)
  /\ bind (set_anchor first) (fun _ => set_anchor second) Defaults.resnet50_fpn =
     set_anchor second Defaults.resnet50_fpn.
Proof.
  split; [split; reflexivity|].
  exact (set_anchor_last_call_wins _
           (Defaults.five_sizes "fasterrcnn" "resnet50")
           (Defaults.five_sizes_no_ratio "fasterrcnn" "resnet50")
           Defaults.resnet50_fpn eq_refl eq_refl).
Defined.


(** X7 on the ResNet50 model: 1024 input features kept, 5 class scores. *)
Lemma create_fasterrcnn_keeps_roi_heads_parts_witness :
  let args := Defaults.plain "fasterrcnn" "resnet50" true false in
  let r := create_fasterrcnn 5 7 Defaults.resnet50_fpn args in
  Args.add_authors args = false
  /\ exists h,
       FasterRCNN.roi_heads (heap r) = torch_roi_heads h
       /\ RoIHeads.box_roi_pool h = nn_module "MultiScaleRoIAlign"
       /\ RoIHeads.box_head h = nn_module "TwoMLPHead"
       /\ RoIHeads.fg_bg_sampler h = RoIHeads.fg_bg_sampler Defaults.roi_heads
       /\ RoIHeads.box_coder h = RoIHeads.box_coder Defaults.roi_heads
       /\ Matcher.allow_low_quality_matches (RoIHeads.proposal_matcher h) = false
       /\ Linear.in_features (FastRCNNPredictor.cls_score (RoIHeads.box_predictor h)) = 1024
       /\ Linear.out_features (FastRCNNPredictor.cls_score (RoIHeads.box_predictor h)) = 5.
Proof.
  split; [reflexivity|].
  exact (create_fasterrcnn_keeps_roi_heads_parts 5 7 Defaults.resnet50_fpn
           (Defaults.plain "fasterrcnn" "resnet50" true false) eq_refl).
Defined.

(** X8 on seven authors against none. *)
Lemma create_fasterrcnn_ignores_n_authors_without_add_authors_witness :
  let args := Defaults.five_sizes "fasterrcnn" "resnet50" in
  Args.add_authors args = false
  /\ create_fasterrcnn 5 7 Defaults.resnet50_fpn args =
     create_fasterrcnn 5 0 Defaults.resnet50_fpn args.
Proof.
  split; [reflexivity|].
  exact (create_fasterrcnn_ignores_n_authors_without_add_authors 5 Defaults.resnet50_fpn
           (Defaults.five_sizes "fasterrcnn" "resnet50") eq_refl 7 0).
Defined.

(** X10 on two SSD configurations that differ in the author count, the
    backbone name, the author switch and every anchor flag. *)
Lemma create_model_single_stage_reads_only_pretrained_witness :
  let args := Defaults.plain "ssd" "vgg16" true true in
  let args' := Defaults.seven_sizes "ssd" "resnet50" in
  (Args.model args = "ssd" /\ Args.model args' = Args.model args
   /\ Args.pretrained args' = Args.pretrained args)
  /\ create_model (torchvision := Defaults.library) 5 0 args' =
     create_model (torchvision := Defaults.library) 5 7 args.
Proof.
  split; [repeat split|].
  exact (create_model_single_stage_reads_only_pretrained
           (torchvision := Defaults.library) 5 7 0
           (Defaults.plain "ssd" "vgg16" true true)
           (Defaults.seven_sizes "ssd" "resnet50")
           (or_intror eq_refl) eq_refl eq_refl).
Defined.

(** X11 on an architecture outside the enumeration. *)
Lemma create_model_unsupported_does_nothing_witness :
  let args := Defaults.plain "yolo" "resnet50" true false in
  supported args = false
  /\ trace (create_model (torchvision := Defaults.library) 5 7 args) = [].
Proof.
  split; [reflexivity|].
  exact (create_model_unsupported_does_nothing
           (torchvision := Defaults.library) 5 7
           (Defaults.plain "yolo" "resnet50" true false) eq_refl).
Defined.

(** X12 on a MobileNet configuration with seven sizes. *)
Lemma create_model_builds_before_rejecting_anchors_witness :
  let args := Defaults.seven_sizes "fasterrcnn" "mobilenet" in
  (supported args = true /\ rejected_anchors args = true)
  /\ exists builder,
       trace (create_model (torchvision := Defaults.library) 5 7 args) =
       [ ev_build builder (Some "DEFAULT");
         ev_print "Number of sizes must be equal to 5" ].
Proof.
  split; [split; reflexivity|].
  exact (create_model_builds_before_rejecting_anchors
           (torchvision := Defaults.library) 5 7
           (Defaults.seven_sizes "fasterrcnn" "mobilenet") eq_refl eq_refl).
Defined.

(** X13 on the backbone name [resnet50v2]. *)
Lemma create_model_backbone_selects_builder_witness :
  let args := Defaults.plain "fasterrcnn" "resnet50v2" false false in
  let r := create_model (torchvision := Defaults.library) 5 7 args in
  (Args.model args = "fasterrcnn" /\ Args.backbone args = "resnet50v2")
  /\ builds (trace r) = [("fasterrcnn_resnet50_fpn_v2", None)]
  /\ heap r =
     Some (fasterrcnn (heap (create_fasterrcnn 5 7 Defaults.resnet50_fpn args))).
Proof.
  split; [split; reflexivity|].
  exact (proj1 (proj2 (create_model_backbone_selects_builder
                         (torchvision := Defaults.library) 5 7
                         (Defaults.plain "fasterrcnn" "resnet50v2" false false) eq_refl))
           eq_refl).
Defined.

(** X14 on the six layers of SSD300 over VGG16. *)
Lemma create_ssd300_keeps_layer_inputs_witness :
  let args := Defaults.plain "ssd" "vgg16" true false in
  let after := heap (create_ssd300 (torchvision := Defaults.library) 5 args) in
  let new_layers :=
    SSDClassificationHead.module_list (SSDHead.classification_head (SSD.head after)) in
  List.length
    (SSDClassificationHead.module_list
       (SSDHead.classification_head (SSD.head Defaults.ssd_model))) =
  List.length (DefaultBoxGenerator.aspect_ratios (SSD.anchor_generator Defaults.ssd_model))
  /\ map Conv2d.in_channels new_layers = [512; 1024; 512; 256; 256; 256]
  /\ map Conv2d.out_channels new_layers = [20; 30; 30; 30; 20; 20]
  /\ SSDHead.regression_head (SSD.head after) = nn_module "SSDRegressionHead"
  /\ SSD.backbone after = nn_module "vgg16".
Proof.
  split; [reflexivity|].
  exact (create_ssd300_keeps_layer_inputs
           (torchvision := Defaults.library) 5
           (Defaults.plain "ssd" "vgg16" true false) eq_refl).
Defined.
